(** * TRACE-AI REDCap bridge: the two Flask handlers of
      [final_trace_ai_redcap_api_script.py]

    [transfer_data] (GET /transfer) exports one record from Project A,
    projects it onto a fixed field list and imports it into Project B;
    [trigger_email] (POST /trigger-email) reads the record back from
    Project B and sets one of two alert trigger fields.

    The handlers are embedded as state-passing functions over a world that
    records every [requests.post] call and every printed line.  The REDCap
    server is a parameter: any function from the calls made so far and the
    current call to either a raised transport error or a response.

    The connection check run at import time and the QC batch script
    [qc_test_trace_ai_redcap_api.py] are embedded over the same world, with
    their [requests.get] calls recorded alongside. *)

From Stdlib Require Import ZArith List String Ascii Bool Lia DecimalString.
From Stdlib Require DecimalPos DecimalZ.
Import ListNotations.
Local Open Scope string_scope.
Local Open Scope Z_scope.
Local Set Warnings "-register-all".

(** ** Python values, as [response.json()] produces them *)

Module Py.

(** A [str] is a sequence of code points below 256: a character of a Rocq
    string stands for the code point of the same number, U+0000 to U+00FF.
    A float is kept as its [repr] text (the shortest decimal that reads back
    to the same double); the handlers only ever pass floats through [str],
    truth tests and [json.dumps]. *)
Inductive pyval : Type :=
| PNone
| PBool (b : bool)
| PInt (z : Z)
| PFloat (repr : string)
| PStr (s : string)
| PList (l : list pyval)
| PDict (d : list (string * pyval)).

Inductive exn : Type :=
| RequestException (msg : string)
| JSONDecodeError (msg : string)
| TypeError (msg : string)
| AttributeError (msg : string)
| IndexError (msg : string)
| KeyError (msg : string).

(** [str(e)] of a caught exception. *)
Definition exn_str (e : exn) : string :=
  match e with
  | RequestException m | JSONDecodeError m | TypeError m
  | AttributeError m | IndexError m | KeyError m => m
  end.

Inductive Result (A : Type) : Type :=
| Ok (a : A)
| Raise (e : exn).
Arguments Ok {A} a.
Arguments Raise {A} e.

Definition type_name (v : pyval) : string :=
  match v with
  | PNone => "NoneType"
  | PBool _ => "bool"
  | PInt _ => "int"
  | PFloat _ => "float"
  | PStr _ => "str"
  | PList _ => "list"
  | PDict _ => "dict"
  end.

Definition str_of_int (z : Z) : string := NilZero.string_of_int (Z.to_int z).

Definition dquote : ascii := ascii_of_nat 34.
Definition squote : ascii := ascii_of_nat 39.
Definition backslash : ascii := ascii_of_nat 92.

Fixpoint mem_char (c : ascii) (s : string) : bool :=
  match s with
  | EmptyString => false
  | String a r => Ascii.eqb a c || mem_char c r
  end.

Definition hex_digit (n : nat) : ascii :=
  ascii_of_nat (if Nat.ltb n 10 then 48 + n else 87 + n).

(** Whether [str.isprintable] holds of a code point below 256: the controls
    U+0000 to U+001F and U+007F to U+009F, the no-break space U+00A0 and the
    soft hyphen U+00AD are not printable, every other one is. *)
Definition isprintable (n : nat) : bool :=
  negb (Nat.ltb n 32 || (Nat.leb 127 n && Nat.leb n 160) || Nat.eqb n 173).

(** One character of [repr] of a [str] delimited by [q]: the backslash and
    the delimiter are escaped, tab, newline and carriage return are named,
    every other non-printable code point becomes a two-digit hexadecimal
    escape, and a printable one is copied. *)
Definition repr_char (q c : ascii) : string :=
  let n := nat_of_ascii c in
  let bs := String backslash EmptyString in
  if Ascii.eqb c backslash then bs ++ bs
  else if Ascii.eqb c q then bs ++ String q EmptyString
  else if Nat.eqb n 10 then bs ++ "n"
  else if Nat.eqb n 13 then bs ++ "r"
  else if Nat.eqb n 9 then bs ++ "t"
  else if negb (isprintable n)
       then bs ++ "x" ++ String (hex_digit (Nat.div n 16))
                               (String (hex_digit (Nat.modulo n 16)) EmptyString)
  else String c EmptyString.

Fixpoint repr_chars (q : ascii) (s : string) : string :=
  match s with
  | EmptyString => EmptyString
  | String c r => repr_char q c ++ repr_chars q r
  end.

Definition repr_str (s : string) : string :=
  let q := if mem_char squote s && negb (mem_char dquote s) then dquote else squote in
  String q (repr_chars q s ++ String q EmptyString).

Fixpoint join (sep : string) (l : list string) : string :=
  match l with
  | [] => ""
  | [x] => x
  | x :: r => x ++ sep ++ join sep r
  end.

Fixpoint py_repr (v : pyval) : string :=
  match v with
  | PNone => "None"
  | PBool true => "True"
  | PBool false => "False"
  | PInt z => str_of_int z
  | PFloat r => r
  | PStr s => repr_str s
  | PList l => "[" ++ join ", " (map py_repr l) ++ "]"
  | PDict d =>
      "{" ++ join ", " (map (fun kv => repr_str (fst kv) ++ ": " ++ py_repr (snd kv)) d) ++ "}"
  end.

(** [str(v)]: the text itself for a [str], [repr] for everything else. *)
Definition py_str (v : pyval) : string :=
  match v with
  | PStr s => s
  | _ => py_repr v
  end.

(** Truth value, as tested by [not v]. *)
Definition py_truth (v : pyval) : bool :=
  match v with
  | PNone => false
  | PBool b => b
  | PInt z => negb (z =? 0)
  | PFloat r => negb (String.eqb r "0.0" || String.eqb r "-0.0")
  | PStr s => negb (String.eqb s "")
  | PList l => match l with [] => false | _ => true end
  | PDict d => match d with [] => false | _ => true end
  end.

(** [len(v)] *)
Definition py_len (v : pyval) : Result Z :=
  match v with
  | PStr s => Ok (Z.of_nat (String.length s))
  | PList l => Ok (Z.of_nat (List.length l))
  | PDict d => Ok (Z.of_nat (List.length d))
  | _ => Raise (TypeError ("object of type '" ++ type_name v ++ "' has no len()"))
  end.

(** [v[0]].  A dict that came out of JSON has only [str] keys, so the
    integer key 0 is never found. *)
Definition py_getitem0 (v : pyval) : Result pyval :=
  match v with
  | PList [] => Raise (IndexError "list index out of range")
  | PList (x :: _) => Ok x
  | PStr EmptyString => Raise (IndexError "string index out of range")
  | PStr (String c _) => Ok (PStr (String c EmptyString))
  | PDict _ => Raise (KeyError "0")
  | _ => Raise (TypeError ("'" ++ type_name v ++ "' object is not subscriptable"))
  end.

Fixpoint dict_lookup (d : list (string * pyval)) (k : string) : option pyval :=
  match d with
  | [] => None
  | (k', v) :: r => if String.eqb k' k then Some v else dict_lookup r k
  end.

Definition dict_get (d : list (string * pyval)) (k : string) (default : pyval) : pyval :=
  match dict_lookup d k with
  | Some x => x
  | None => default
  end.

(** [v.get(k, default)]; only a dict has the method. *)
Definition py_get (v : pyval) (k : string) (default : pyval) : Result pyval :=
  match v with
  | PDict d => Ok (dict_get d k default)
  | _ => Raise (AttributeError ("'" ++ type_name v ++ "' object has no attribute 'get'"))
  end.

(** [d[k] = v] on a dict kept in insertion order. *)
Fixpoint dict_set (d : list (string * pyval)) (k : string) (v : pyval)
  : list (string * pyval) :=
  match d with
  | [] => [(k, v)]
  | (k', v') :: r =>
      if String.eqb k' k then (k', v) :: r else (k', v') :: dict_set r k v
  end.

(** An [Optional[str]] as a Python value, its truth value and its rendering
    inside an f-string. *)
Definition of_optstr (o : option string) : pyval :=
  match o with
  | None => PNone
  | Some s => PStr s
  end.

Definition fmt (o : option string) : string := py_str (of_optstr o).

End Py.
Import Py.

(** ** HTTP: what [requests.post] sends and receives *)

(** One value of the form-encoded [data=] dict: [None], a text, or the text
    [json.dumps(v)], kept as the value [v] it serialises. *)
Inductive formval : Type :=
| FNone
| FText (s : string)
| FJsonDumps (v : pyval).

Definition form_of (o : option string) : formval :=
  match o with
  | None => FNone
  | Some s => FText s
  end.

Record Request : Type := mkRequest {
  url : option string;
  data : list (string * formval)
}.

(** [response.json()] either raises on a body that is not JSON or returns
    the decoded value. *)
Inductive JsonBody : Type :=
| NotJson (msg : string)
| Json (v : pyval).

Record Response : Type := mkResponse {
  status_code : Z;
  text : string;
  json : JsonBody
}.

Inductive PostResult : Type :=
| PostRaises (msg : string)
| PostReturns (r : Response).

(** The three module globals read from the environment with [os.getenv]. *)
Record Config : Type := mkConfig {
  API_TOKEN_A : option string;
  API_TOKEN_B : option string;
  REDCAP_API_URL : option string
}.

(** ** What a handler returns to Flask *)

(** The middle block of the page rendered by [transfer_data]: the template
    tests [choice == '1'], then [choice == '2'], and otherwise shows the
    warning with the value of [choice].  Both forms post the hidden field
    [rec_id] to /trigger-email. *)
Inductive ConsentBlock : Type :=
| ElectronicConsentForm (rec_id : string)
| InPersonConsentForm (rec_id : string)
| NoPreferenceWarning (choice : string).

Inductive Body : Type :=
| Text (s : string)
| SyncedPage (rec : string) (block : ConsentBlock)
| ActionCompletePage.

(** Body and status code; a bare string return has status 200. *)
Definition HttpReturn : Type := (Body * Z)%type.

Definition render_template_string (rec choice : string) : Body :=
  SyncedPage rec
    (if String.eqb choice "1" then ElectronicConsentForm rec
     else if String.eqb choice "2" then InPersonConsentForm rec
     else NoPreferenceWarning choice).

(** ** The world a handler runs in, and the monad threading it *)

Record World : Type := mkWorld {
  calls : list Request;
  stdout : list string
}.

Definition init : World := mkWorld [] [].

Definition M (A : Type) : Type := World -> Result A * World.

Definition ret {A} (a : A) : M A := fun w => (Ok a, w).

Definition bind {A B} (m : M A) (k : A -> M B) : M B :=
  fun w =>
    match m w with
    | (Ok a, w') => k a w'
    | (Raise e, w') => (Raise e, w')
    end.

Notation "x <- m ;; k" := (bind m (fun x => k))
  (at level 61, m at next level, right associativity).
Notation "m ;; k" := (bind m (fun _ => k))
  (at level 61, right associativity).

Definition lift {A} (r : Result A) : M A := fun w => (r, w).

(** [try: body except <classes>: handler] *)
Definition try_except {A} (body : M A) (classes : exn -> bool)
    (handler : exn -> M A) : M A :=
  fun w =>
    match body w with
    | (Ok a, w') => (Ok a, w')
    | (Raise e, w') => if classes e then handler e w' else (Raise e, w')
    end.

Definition Exception (e : exn) : bool := true.

Definition IndexError_or_KeyError (e : exn) : bool :=
  match e with
  | IndexError _ | KeyError _ => true
  | _ => false
  end.

Definition print (line : string) : M unit :=
  fun w => (Ok tt, mkWorld (calls w) (stdout w ++ [line])).

Definition response_json (r : Response) : M pyval :=
  match json r with
  | NotJson msg => lift (Raise (JSONDecodeError msg))
  | Json v => ret v
  end.

(** [request.args.get(k)] and [request.form.get(k)] *)
Fixpoint multidict_get (d : list (string * string)) (k : string) : option string :=
  match d with
  | [] => None
  | (k', v) :: r => if String.eqb k' k then Some v else multidict_get r k
  end.

(** [not record_id] on an [Optional[str]] *)
Definition py_not (o : option string) : bool := negb (py_truth (of_optstr o)).

(** ** The two route handlers *)

Section Handlers.

Variable cfg : Config.

(** The REDCap endpoint: given the calls already made and the current one,
    the transport either raises or delivers a response. *)
Variable remote : list Request -> Request -> PostResult.

(** [requests.post(REDCAP_API_URL, data=payload)]; every attempt is recorded. *)
Definition requests_post (payload : list (string * formval)) : M Response :=
  fun w =>
    let req := mkRequest (REDCAP_API_URL cfg) payload in
    let w' := mkWorld (calls w ++ [req]) (stdout w) in
    match remote (calls w) req with
    | PostRaises msg => (Raise (RequestException msg), w')
    | PostReturns r => (Ok r, w')
    end.

Definition export_payload (record_id : option string) : list (string * formval) :=
  [ ("token", form_of (API_TOKEN_A cfg));
    ("content", FText "record");
    ("format", FText "json");
    ("type", FText "flat");
    ("records[0]", form_of record_id);
    ("exportSurveyFields", FText "true") ].

Definition clean_data_for_b (record_id : option string)
    (pt_email pt_phone res_email elig_date : pyval) (consent_choice : string)
  : list (string * pyval) :=
  [ ("record_id", of_optstr record_id);
    ("pt_email", pt_email);
    ("pt_phone", pt_phone);
    ("res_email", res_email);
    ("elig_date", elig_date);
    ("interested_consent", PStr consent_choice);
    ("trace_ai_eligibility_screening_draft_complete", PStr "2");
    ("record_set_up_complete", PStr "2") ].

Definition import_payload (clean : list (string * pyval)) : list (string * formval) :=
  [ ("token", form_of (API_TOKEN_B cfg));
    ("content", FText "record");
    ("format", FText "json");
    ("type", FText "flat");
    ("overwriteBehavior", FText "normal");
    ("data", FJsonDumps (PList [PDict clean])) ].

(** The [try:] block of [transfer_data].  [inl r] is a [return r] executed
    inside the block; [inr consent_choice] is the block running to its end,
    leaving [consent_choice] bound for the code after it. *)
Definition transfer_try (record_id : option string) : M (HttpReturn + string) :=
  response_a <- requests_post (export_payload record_id) ;;
  records <- response_json response_a ;;
  empty <- (if negb (py_truth records) then ret true
            else n <- lift (py_len records) ;; ret (n =? 0)) ;;
  if (empty : bool) then
    ret (inl (Text ("Error: Record " ++ fmt record_id
                    ++ " not found in Project TRACE-AI Prospective Study."), 404))
  else
    data_from_a <- lift (py_getitem0 records) ;;
    interested_consent <- lift (py_get data_from_a "interested_consent" (PStr "")) ;;
    let consent_choice := py_str interested_consent in
    pt_email <- lift (py_get data_from_a "pt_email" PNone) ;;
    pt_phone <- lift (py_get data_from_a "pt_phone" PNone) ;;
    res_email <- lift (py_get data_from_a "res_email" PNone) ;;
    elig_date <- lift (py_get data_from_a "elig_date" PNone) ;;
    response_b <- requests_post
      (import_payload
         (clean_data_for_b record_id pt_email pt_phone res_email elig_date
            consent_choice)) ;;
    print ("Sync Event: Record " ++ fmt record_id ++ " | Status: "
           ++ str_of_int (status_code response_b)) ;;
    ret (inr consent_choice).

(** GET /transfer *)
Definition transfer_data (args : list (string * string)) : M HttpReturn :=
  let record_id := multidict_get args "record" in
  if py_not record_id then ret (Text "Error: No record ID provided.", 400)
  else
    r <- try_except (transfer_try record_id) Exception
           (fun e => ret (inl (Text ("System Error during transfer: " ++ exn_str e), 500))) ;;
    match r with
    | inl early => ret early
    | inr consent_choice =>
        ret (render_template_string (fmt record_id) consent_choice, 200)
    end.

Definition fetch_payload (record_id : option string) : list (string * formval) :=
  [ ("token", form_of (API_TOKEN_B cfg));
    ("content", FText "record");
    ("format", FText "json");
    ("records[0]", form_of record_id) ].

Definition update_payload (trigger_payload : list (string * pyval))
  : list (string * formval) :=
  [ ("token", form_of (API_TOKEN_B cfg));
    ("content", FText "record");
    ("format", FText "json");
    ("type", FText "flat");
    ("data", FJsonDumps (PList [PDict trigger_payload])) ].

(** The [try:] block of [trigger_email]: the stored choice, read back. *)
Definition trigger_try (res : Response) : M (HttpReturn + string) :=
  j <- response_json res ;;
  data <- lift (py_getitem0 j) ;;
  interested_consent <- lift (py_get data "interested_consent" (PStr "")) ;;
  ret (inr (py_str interested_consent)).

(** The tail of [trigger_email] once [trigger_payload] is complete: the
    update of Project B, the log lines, the closing page. *)
Definition send_update (record_id : option string) (choice : string)
    (trigger_payload : list (string * pyval)) : M HttpReturn :=
  response <- requests_post (update_payload trigger_payload) ;;
  (if negb (status_code response =? 200)
   then print ("REDCAP ERROR for Record " ++ fmt record_id ++ ": " ++ text response)
   else print ("Success! Record " ++ fmt record_id ++ " updated. Choice: " ++ choice)) ;;
  print ("Email Alert Triggered: Record " ++ fmt record_id ++ " | Response: "
         ++ text response ++ ". |  Status: " ++ str_of_int (status_code response)
         ++ " for Choice " ++ choice) ;;
  ret (ActionCompletePage, 200).

(** POST /trigger-email *)
Definition trigger_email (form : list (string * string)) : M HttpReturn :=
  let record_id := multidict_get form "rec_id" in
  res <- requests_post (fetch_payload record_id) ;;
  r <- try_except (trigger_try res) IndexError_or_KeyError
         (fun _ => ret (inl (Text "Error: Could not retrieve record details from Project B.", 500))) ;;
  match r with
  | inl early => ret early
  | inr choice =>
      let trigger_payload := [("record_id", of_optstr record_id)] in
      if String.eqb choice "1" then
        send_update record_id choice (dict_set trigger_payload "trigger_email" (PStr "1"))
      else if String.eqb choice "2" then
        send_update record_id choice
          (dict_set trigger_payload "cons_in_person_email" (PStr "1"))
      else
        print ("No consent alert sent for Record " ++ fmt record_id
               ++ " (Choice: " ++ choice ++ ")") ;;
        ret (Text "No alert needed for this choice.", 200)
  end.

End Handlers.

(** ** Vocabulary for the statements *)

Definition export_request (cfg : Config) (record_id : option string) : Request :=
  mkRequest (REDCAP_API_URL cfg) (export_payload cfg record_id).

Definition import_request (cfg : Config) (clean : list (string * pyval)) : Request :=
  mkRequest (REDCAP_API_URL cfg) (import_payload cfg clean).

Definition fetch_request (cfg : Config) (record_id : option string) : Request :=
  mkRequest (REDCAP_API_URL cfg) (fetch_payload cfg record_id).

Definition update_request (cfg : Config) (trigger_payload : list (string * pyval))
  : Request :=
  mkRequest (REDCAP_API_URL cfg) (update_payload cfg trigger_payload).

(** The consent code both handlers derive from a fetched record [d]:
    [str(d.get('interested_consent', ''))]. *)
Definition consent_choice_of (d : list (string * pyval)) : string :=
  py_str (dict_get d "interested_consent" (PStr "")).

(** The record [transfer_data] builds from the fetched record [d]. *)
Definition projection (record_id : option string) (d : list (string * pyval))
  : list (string * pyval) :=
  clean_data_for_b record_id
    (dict_get d "pt_email" PNone) (dict_get d "pt_phone" PNone)
    (dict_get d "res_email" PNone) (dict_get d "elig_date" PNone)
    (consent_choice_of d).

(** The update record [trigger_email] builds on its two actionable branches. *)
Definition trigger_payload_of (record_id : option string) (choice : string)
  : list (string * pyval) :=
  dict_set [("record_id", of_optstr record_id)]
    (if String.eqb choice "1" then "trigger_email" else "cons_in_person_email")
    (PStr "1").

(** The entries of an update that touch one of the two alert triggers. *)
Definition is_trigger_field (k : string) : bool :=
  String.eqb k "trigger_email" || String.eqb k "cons_in_person_email".

Definition trigger_fields (p : list (string * pyval)) : list (string * pyval) :=
  filter (fun kv => is_trigger_field (fst kv)) p.

(** A call writes to a project when it carries a [data] field. *)
Definition is_write (r : Request) : bool :=
  existsb (fun kv => String.eqb (fst kv) "data") (data r).

Definition writes (w : World) : list Request := filter is_write (calls w).

(** A server that answers the n-th call with the n-th entry of a script and
    refuses the connection afterwards. *)
Definition scripted (script : list PostResult) : list Request -> Request -> PostResult :=
  fun history _ => nth (List.length history) script (PostRaises "Connection refused").

Definition example_cfg : Config :=
  mkConfig (Some "TOKEN-A") (Some "TOKEN-B") (Some "https://redcap.example.org/api/").

Definition respond (status : Z) (body : string) (v : pyval) : PostResult :=
  PostReturns (mkResponse status body (Json v)).

Definition ok_response (v : pyval) : PostResult := respond 200 "" v.

(** A record as REDCap exports it, with one screening field ([dob]) that is
    not on the transfer list. *)
Definition example_record (consent : list (string * pyval)) : list (string * pyval) :=
  [ ("record_id", PStr "42"); ("pt_email", PStr "pat@example.org");
    ("pt_phone", PStr "555-0100"); ("dob", PStr "1970-01-01") ] ++ consent.

Definition C1_script : list PostResult :=
  [ ok_response (PList [PDict [("record_id", PStr "42"); ("interested_consent", PStr "2")]]);
    ok_response (PDict [("count", PInt 1)]) ].

Definition C2_script : list PostResult :=
  [ ok_response (PList [PDict (example_record [])]) ].

Definition C3_script : list PostResult :=
  [ ok_response (PList [PDict (example_record [("interested_consent", PStr "1")])]);
    ok_response (PDict [("count", PInt 1)]) ].

Definition C4_script : list PostResult :=
  [ ok_response (PList [PDict (example_record [("interested_consent", PStr "1")])]);
    respond 403 "You do not have permissions to use the API" (PDict []) ].

Definition C8_script : list PostResult := [ ok_response (PList []) ].

Definition C5_rejected_script : list PostResult :=
  [ ok_response (PList [PDict [("record_id", PStr "42"); ("interested_consent", PStr "1")]]);
    respond 400 "ERROR: invalid field" (PDict [("error", PStr "invalid field")]) ].

Definition C5_accepted_script : list PostResult :=
  [ ok_response (PList [PDict [("record_id", PStr "42"); ("interested_consent", PStr "1")]]);
    respond 200 "{count: 1}" (PDict [("count", PInt 1)]) ].

Definition C6_script : list PostResult :=
  [ PostReturns (mkResponse 502 "<html>Bad Gateway</html>"
                   (NotJson "Expecting value: line 1 column 1 (char 0)")) ].

(** A read-back that is answered with every record of the project. *)
Definition C7_script : list PostResult :=
  [ ok_response (PList [PDict [("record_id", PStr "30"); ("interested_consent", PStr "1")];
                        PDict [("record_id", PStr "31"); ("interested_consent", PStr "2")]]);
    ok_response (PDict [("count", PInt 1)]) ].


(** A transfer of record 42 followed by its read-back in [trigger_email]. *)
Definition C10_script : list PostResult :=
  [ ok_response (PList [PDict (example_record [("interested_consent", PNone)])]);
    ok_response (PDict [("count", PInt 1)]);
    ok_response (PList [PDict [("record_id", PStr "42"); ("interested_consent", PNone)]]) ].

(** ** The text of a response *)

Definition dq : string := String dquote EmptyString.
Definition nl : string := String (ascii_of_nat 10) EmptyString.

(** [markupsafe.escape], applied by the template engine to every
    [{{ ... }}] of a string template. *)
Definition escape_char (c : ascii) : string :=
  if Ascii.eqb c "&" then "&amp;"
  else if Ascii.eqb c "<" then "&lt;"
  else if Ascii.eqb c ">" then "&gt;"
  else if Ascii.eqb c squote then "&#39;"
  else if Ascii.eqb c dquote then "&#34;"
  else String c EmptyString.

Fixpoint escape (s : string) : string :=
  match s with
  | EmptyString => EmptyString
  | String c r => escape_char c ++ escape r
  end.

(** The template of [transfer_data], cut at its [{% ... %}] tags, and the
    page returned by [trigger_email]. *)
Definition page_head (rec : string) : string :=
  nl ++
  "        <div style=" ++ dq ++ "font-family: sans-serif; text-align: center; margin-top: 100px;" ++ dq ++ ">" ++ nl ++
  "            <div style=" ++ dq ++ "border: 1px solid #ccc; display: inline-block; padding: 40px; border-radius: 10px; max-width: 500px;" ++ dq ++ ">" ++ nl ++
  "                <h1 style=" ++ dq ++ "color: #2c3e50;" ++ dq ++ ">Eligibility Form Submitted</h1>" ++ nl ++
  "                <p style=" ++ dq ++ "font-size: 1.1em;" ++ dq ++ ">Record <strong>" ++ escape rec ++ "</strong> has been synced to the Consent Database.</p>" ++ nl ++
  "                <hr style=" ++ dq ++ "margin: 25px 0;" ++ dq ++ ">" ++ nl ++
  "                " ++ nl ++
  "                ".

Definition electronic_block (rec : string) : string :=
  nl ++
  "                    <p>The participant selected <strong>Electronic Consent</strong>.</p>" ++ nl ++
  "                    <p>Click below to send the Questionnaire link to their email.</p>" ++ nl ++
  "                    <form action=" ++ dq ++ "/trigger-email" ++ dq ++ " method=" ++ dq ++ "POST" ++ dq ++ ">" ++ nl ++
  "                        <input type=" ++ dq ++ "hidden" ++ dq ++ " name=" ++ dq ++ "rec_id" ++ dq ++ " value=" ++ dq ++ escape rec ++ dq ++ ">" ++ nl ++
  "                        <button type=" ++ dq ++ "submit" ++ dq ++ " style=" ++ dq ++ "background: #007bff; color: white; border: none; padding: 15px 30px; font-size: 18px; border-radius: 5px; cursor: pointer;" ++ dq ++ ">" ++ nl ++
  "                            Send My Questionnaire" ++ nl ++
  "                        </button>" ++ nl ++
  "                    </form>" ++ nl ++
  "                ".

Definition in_person_block (rec : string) : string :=
  nl ++
  "                    <p>The participant selected <strong>In-Person Consent</strong>.</p>" ++ nl ++
  "                    <p>Click below to trigger the internal notification for in-person setup.</p>" ++ nl ++
  "                    <form action=" ++ dq ++ "/trigger-email" ++ dq ++ " method=" ++ dq ++ "POST" ++ dq ++ ">" ++ nl ++
  "                        <input type=" ++ dq ++ "hidden" ++ dq ++ " name=" ++ dq ++ "rec_id" ++ dq ++ " value=" ++ dq ++ escape rec ++ dq ++ ">" ++ nl ++
  "                        <button type=" ++ dq ++ "submit" ++ dq ++ " style=" ++ dq ++ "background: #28a745; color: white; border: none; padding: 15px 30px; font-size: 18px; border-radius: 5px; cursor: pointer;" ++ dq ++ ">" ++ nl ++
  "                            Prepare In-Person Consent" ++ nl ++
  "                        </button>" ++ nl ++
  "                    </form>" ++ nl ++
  "                ".

Definition warning_block (choice : string) : string :=
  nl ++
  "                    <p style=" ++ dq ++ "color: #e74c3c; font-weight: bold;" ++ dq ++ ">Warning: No consent preference was recorded (Value: " ++ escape choice ++ ").</p>" ++ nl ++
  "                    <p>Please review the record in REDCap.</p>" ++ nl ++
  "                ".

Definition page_tail : string :=
  nl ++
  "            </div>" ++ nl ++
  "        </div>" ++ nl ++
  "    ".

Definition action_complete_html : string :=
  nl ++
  "        <div style=" ++ dq ++ "font-family: sans-serif; text-align: center; margin-top: 100px;" ++ dq ++ ">" ++ nl ++
  "            <h2 style=" ++ dq ++ "color: #2c3e50;" ++ dq ++ ">Action Complete!</h2>" ++ nl ++
  "            <p style=" ++ dq ++ "font-size: 1.1em;" ++ dq ++ ">The corresponding alert has been triggered in REDCap.</p>" ++ nl ++
  "            <p>You may now close this window or return to the dashboard.</p>" ++ nl ++
  "        </div>" ++ nl ++
  "    ".

(** The body Flask sends: a returned string as it is, a rendered template
    with the block its [if] selected. *)
Definition body_text (b : Body) : string :=
  match b with
  | Text s => s
  | SyncedPage rec block =>
      page_head rec
      ++ match block with
         | ElectronicConsentForm rec_id => electronic_block rec_id
         | InPersonConsentForm rec_id => in_person_block rec_id
         | NoPreferenceWarning choice => warning_block choice
         end
      ++ page_tail
  | ActionCompletePage => action_complete_html
  end.

(** A response object carrying what a handler returned. *)
Definition carries (r : Response) (ret : HttpReturn) : Prop :=
  status_code r = snd ret /\ text r = body_text (fst ret).

(** ** [requests.get], the start-up check and the QC batch script *)

(** [needle in hay] on two [str]. *)
Fixpoint py_in (needle hay : string) : bool :=
  if String.prefix needle hay then true
  else match hay with
       | EmptyString => false
       | String _ r => py_in needle r
       end.

(** [s.split(sep)[0]] for a non-empty [sep]: the text before the first
    occurrence of [sep], all of [s] when there is none. *)
Fixpoint before_first (sep s : string) : string :=
  if String.prefix sep s then EmptyString
  else match s with
       | EmptyString => EmptyString
       | String c r => String c (before_first sep r)
       end.

(** [url.split(sep)[0]] on a module global that [os.getenv] may have left
    [None]. *)
Definition split0 (o : option string) (sep : string) : Result string :=
  match o with
  | None => Raise (AttributeError "'NoneType' object has no attribute 'split'")
  | Some s => Ok (before_first sep s)
  end.

(** [requests.get(url, params=params)], recorded like a post. *)
Definition requests_get (server : list Request -> Request -> PostResult)
    (url : string) (params : list (string * formval)) : M Response :=
  fun w =>
    let req := mkRequest (Some url) params in
    let w' := mkWorld (calls w ++ [req]) (stdout w) in
    match server (calls w) req with
    | PostRaises msg => (Raise (RequestException msg), w')
    | PostReturns r => (Ok r, w')
    end.

(** The connection check run when the module is imported. *)
Definition connection_check (cfg : Config)
    (server : list Request -> Request -> PostResult) : M unit :=
  try_except
    (base <- lift (split0 (REDCAP_API_URL cfg) "api/") ;;
     response <- requests_get server base [] ;;
     print ("REDCAP Connection Check: " ++ str_of_int (status_code response)
            ++ " - Secure"))
    Exception
    (fun e => print ("Warning: Could not verify REDCap connection: " ++ exn_str e)).

(** [qc_test_trace_ai_redcap_api.py].  Here the console is kept as the
    sequence of texts written: [println] is [print(s)], [print_end_empty] is
    [print(s, end="")].  [time.sleep] has no effect on what is modelled. *)
Module QC.

Definition records : list string :=
  map (fun i => str_of_int (Z.of_nat i)) (seq 30 16).

Definition BASE_URL : string := "http://127.0.0.1:5000/transfer".

Definition println (s : string) : M unit := print (s ++ nl).

Definition print_end_empty (s : string) : M unit := print s.

Fixpoint times (s : string) (n : nat) : string :=
  match n with
  | O => EmptyString
  | S k => s ++ times s k
  end.

(** The line printed for a response that arrived. *)
Definition verdict (response : Response) : string :=
  if status_code response =? 200 then
    if py_in "Electronic Consent" (text response) then "SUCCESS [Electronic Consent]"
    else if py_in "In-Person Consent" (text response) then "SUCCESS [In-Person Consent]"
    else "SUCCESS [Synced]"
  else if status_code response =? 404 then "FAILED | Record not found in Project A."
  else if status_code response =? 400 then "FAILED | Missing Record ID."
  else "ERROR | Status: " ++ str_of_int (status_code response).

Section Script.

Variable flask : list Request -> Request -> PostResult.

(** One turn of the [for] loop. *)
Definition test_record (rid : string) : M unit :=
  print_end_empty ("Testing Record " ++ rid ++ ": ") ;;
  try_except
    (response <- requests_get flask BASE_URL [("record", FText rid)] ;;
     println (verdict response))
    Exception
    (fun e => println ("CONNECTION ERROR | Is Flask running?: " ++ exn_str e)).

Fixpoint for_rid_in (rids : list string) : M unit :=
  match rids with
  | [] => ret tt
  | rid :: rest => test_record rid ;; for_rid_in rest
  end.

Definition main : M unit :=
  println "---STARTING QC BATCH TEST---" ;;
  println (times "-" 50) ;;
  for_rid_in records ;;
  println (times "-" 50) ;;
  println "Batch Test Complete. Check your Flask terminal for Sync logs.".

End Script.

End QC.

(** ** Further vocabulary *)

Fixpoint form_lookup (d : list (string * formval)) (k : string) : option formval :=
  match d with
  | [] => None
  | (k', v) :: r => if String.eqb k' k then Some v else form_lookup r k
  end.

(** The credential a call presents. *)
Definition token_of (r : Request) : option formval := form_lookup (data r) "token".

(** The request the QC script sends for one id. *)
Definition QC_request (rid : string) : Request :=
  mkRequest (Some QC.BASE_URL) [("record", FText rid)].

(** What the QC script prints after "Testing Record ...: " for one outcome
    of its request. *)
Definition QC_line (res : PostResult) : string :=
  match res with
  | PostRaises msg => "CONNECTION ERROR | Is Flask running?: " ++ msg
  | PostReturns r => QC.verdict r
  end.

(** ** Running the handlers *)

(** The Python primitives on a few values. *)
Example py_str_values :
  py_str PNone = "None" /\ py_str (PStr "1") = "1" /\ py_str (PInt 1) = "1" /\
  py_str (PBool true) = "True" /\
  py_str (PList [PStr "a"; PInt (-7)]) = "['a', -7]" /\
  py_str (PDict [("k", PNone); ("it's", PList [])]) =
    String "{" ("'k': None, " ++ String dquote ("it's" ++ String dquote ": []}")).
Proof. repeat split. Qed.

Example py_getitem0_values :
  py_getitem0 (PList []) = Raise (IndexError "list index out of range") /\
  py_getitem0 (PDict [("error", PStr "x")]) = Raise (KeyError "0") /\
  py_getitem0 PNone = Raise (TypeError "'NoneType' object is not subscriptable") /\
  py_get (PStr "e") "interested_consent" (PStr "") =
    Raise (AttributeError "'str' object has no attribute 'get'").
Proof. repeat split. Qed.

(** [repr] of text inside a list: the no-break space U+00A0 is written as a
    hexadecimal escape, the letter U+00E9 is copied. *)
Example py_str_non_printable :
  py_str (PList [PStr (String (ascii_of_nat 160) (String (ascii_of_nat 233) ""))]) =
    String "[" (String squote (String backslash
      ("xa0" ++ String (ascii_of_nat 233) (String squote "]")))).
Proof. reflexivity. Qed.

Lemma py_not_nonempty (rid : string) : rid <> "" -> py_not (Some rid) = false.
Proof.
  intros H. unfold py_not. simpl.
  apply String.eqb_neq in H. rewrite H. reflexivity.
Qed.

Section Runs.

Variable cfg : Config.
Variable remote : list Request -> Request -> PostResult.

(** [transfer_data] on a present, non-empty id whose export returns a list
    headed by a dict: the import is attempted with the projected record, and
    the outcome depends only on whether that second call raises. *)
Lemma transfer_data_run (args : list (string * string)) (rid : string)
    (ra : Response) (d : list (string * pyval)) (rest : list pyval) (w : World) :
  multidict_get args "record" = Some rid ->
  rid <> "" ->
  remote (calls w) (export_request cfg (Some rid)) = PostReturns ra ->
  json ra = Json (PList (PDict d :: rest)) ->
  let req_b := import_request cfg (projection (Some rid) d) in
  let calls' := ((calls w ++ [export_request cfg (Some rid)]) ++ [req_b])%list in
  transfer_data cfg remote args w =
    match remote (calls w ++ [export_request cfg (Some rid)])%list req_b with
    | PostRaises msg =>
        (Ok (Text ("System Error during transfer: " ++ msg), 500),
         mkWorld calls' (stdout w))
    | PostReturns rb =>
        (Ok (render_template_string rid (consent_choice_of d), 200),
         mkWorld calls'
           (stdout w ++ [("Sync Event: Record " ++ rid ++ " | Status: "
                          ++ str_of_int (status_code rb))%string])%list)
    end.
Proof.
  intros Hid Hne Ha Hj req_b calls'.
  unfold transfer_data. rewrite Hid, (py_not_nonempty rid Hne).
  unfold bind, try_except, transfer_try, bind, requests_post.
  fold (export_request cfg (Some rid)). rewrite Ha.
  unfold response_json. rewrite Hj. cbn -[String.append str_of_int].
  fold (consent_choice_of d). fold (projection (Some rid) d).
  fold (import_request cfg (projection (Some rid) d)). fold req_b.
  destruct (remote _ req_b); reflexivity.
Qed.

(** The update call of [trigger_email]: always attempted once; a transport
    error leaves the handler, any response leads to the closing page. *)
Lemma send_update_run (record_id : option string) (choice : string)
    (p : list (string * pyval)) (w : World) :
  send_update cfg remote record_id choice p w =
    let calls' := (calls w ++ [update_request cfg p])%list in
    match remote (calls w) (update_request cfg p) with
    | PostRaises msg => (Raise (RequestException msg), mkWorld calls' (stdout w))
    | PostReturns r =>
        (Ok (ActionCompletePage, 200),
         mkWorld calls'
           (stdout w ++
            [ if negb (status_code r =? 200)
              then ("REDCAP ERROR for Record " ++ fmt record_id ++ ": " ++ text r)%string
              else ("Success! Record " ++ fmt record_id ++ " updated. Choice: "
                    ++ choice)%string;
              ("Email Alert Triggered: Record " ++ fmt record_id ++ " | Response: "
               ++ text r ++ ". |  Status: " ++ str_of_int (status_code r)
               ++ " for Choice " ++ choice)%string ])%list)
    end.
Proof.
  unfold send_update, bind, requests_post. fold (update_request cfg p).
  destruct (remote (calls w) (update_request cfg p)) as [msg | r]; [reflexivity |].
  destruct (negb (status_code r =? 200)); cbn -[String.append str_of_int];
    rewrite <- app_assoc; reflexivity.
Qed.

(** [trigger_email] once the read-back returned a list headed by a dict. *)
Lemma trigger_email_run (form : list (string * string)) (res : Response)
    (d : list (string * pyval)) (rest : list pyval) (w : World) :
  let record_id := multidict_get form "rec_id" in
  remote (calls w) (fetch_request cfg record_id) = PostReturns res ->
  json res = Json (PList (PDict d :: rest)) ->
  let choice := consent_choice_of d in
  let w1 := mkWorld (calls w ++ [fetch_request cfg record_id]) (stdout w) in
  trigger_email cfg remote form w =
    if String.eqb choice "1" then
      send_update cfg remote record_id choice
        [("record_id", of_optstr record_id); ("trigger_email", PStr "1")] w1
    else if String.eqb choice "2" then
      send_update cfg remote record_id choice
        [("record_id", of_optstr record_id); ("cons_in_person_email", PStr "1")] w1
    else
      (Ok (Text "No alert needed for this choice.", 200),
       mkWorld (calls w1)
         (stdout w ++ [("No consent alert sent for Record " ++ fmt record_id
                        ++ " (Choice: " ++ choice ++ ")")%string])%list).
Proof.
  intros record_id Hf Hj choice w1.
  unfold trigger_email. fold record_id.
  unfold bind at 1. unfold requests_post at 1.
  fold (fetch_request cfg record_id). rewrite Hf. fold w1.
  unfold bind at 1. unfold try_except, trigger_try, bind, response_json.
  rewrite Hj. cbn -[String.append String.eqb send_update].
  fold (consent_choice_of d). fold choice.
  destruct (String.eqb choice "1"); [reflexivity |].
  destruct (String.eqb choice "2"); reflexivity.
Qed.

End Runs.

Ltac destruct_post :=
  match goal with
  | |- context [match ?x with PostRaises _ => _ | PostReturns _ => _ end] =>
      destruct x
  end.

Lemma absent_choice_is_empty (d : list (string * pyval)) :
  dict_lookup d "interested_consent" = None -> consent_choice_of d = "".
Proof.
  intros H. unfold consent_choice_of, dict_get. rewrite H. reflexivity.
Qed.

Lemma fetch_is_not_a_write (cfg : Config) (record_id : option string) :
  is_write (fetch_request cfg record_id) = false.
Proof. reflexivity. Qed.

Lemma export_is_not_a_write (cfg : Config) (record_id : option string) :
  is_write (export_request cfg record_id) = false.
Proof. reflexivity. Qed.

Lemma import_is_a_write (cfg : Config) (clean : list (string * pyval)) :
  is_write (import_request cfg clean) = true.
Proof. reflexivity. Qed.

Lemma update_is_a_write (cfg : Config) (p : list (string * pyval)) :
  is_write (update_request cfg p) = true.
Proof. reflexivity. Qed.

Lemma writes_after_read (w : World) (r : Request) (out : list string) :
  is_write r = false ->
  writes (mkWorld (calls w ++ [r]) out) = writes w.
Proof.
  intros H. unfold writes. simpl. rewrite filter_app. simpl. rewrite H.
  apply app_nil_r.
Qed.

(** ** Consent dispatcher: which trigger is written *)

(** C1.  Whenever the record read back from Project B carries consent choice
    "1" or "2", [trigger_email] makes exactly one update call after the read.
    The [data] field of that call is the JSON text of a one-record list, and
    that record holds the record id and exactly one trigger field, set to
    "1": [trigger_email] for choice "1", [cons_in_person_email] for choice
    "2".  The other trigger field does not occur in the record at all, so it
    is neither set nor cleared. *)
Theorem dispatch_sets_exactly_one_trigger
    (cfg : Config) (remote : list Request -> Request -> PostResult)
    (form : list (string * string)) (record_id : option string)
    (res : Response) (d : list (string * pyval)) (rest : list pyval) (w : World) :
  multidict_get form "rec_id" = record_id ->
  remote (calls w) (fetch_request cfg record_id) = PostReturns res ->
  json res = Json (PList (PDict d :: rest)) ->
  consent_choice_of d = "1" \/ consent_choice_of d = "2" ->
  exists p : list (string * pyval),
    calls (snd (trigger_email cfg remote form w)) =
      (calls w ++ [fetch_request cfg record_id; update_request cfg p])%list /\
    form_lookup (data (update_request cfg p)) "data" =
      Some (FJsonDumps (PList [PDict p])) /\
    map fst p = ["record_id"; if String.eqb (consent_choice_of d) "1"
                              then "trigger_email" else "cons_in_person_email"] /\
    (trigger_fields p = [("trigger_email", PStr "1")] \/
     trigger_fields p = [("cons_in_person_email", PStr "1")]) /\
    (consent_choice_of d = "1" ->
       dict_lookup p "trigger_email" = Some (PStr "1") /\
       dict_lookup p "cons_in_person_email" = None) /\
    (consent_choice_of d = "2" ->
       dict_lookup p "cons_in_person_email" = Some (PStr "1") /\
       dict_lookup p "trigger_email" = None).
Proof.
  intros Hid Hf Hj Hc. subst record_id.
  rewrite (trigger_email_run cfg remote form res d rest w Hf Hj).
  destruct Hc as [Hc | Hc]; rewrite Hc; cbn [String.eqb Ascii.eqb Bool.eqb];
    rewrite send_update_run; cbn [calls];
    match goal with
    | |- context [update_request cfg ?q] => exists q
    end;
    (split; [destruct_post; cbn [snd calls]; rewrite <- app_assoc; reflexivity |]);
    (split; [reflexivity |]);
    (split; [reflexivity |]);
    (split; [(left; reflexivity) || (right; reflexivity) |]);
    split; intros E; try discriminate E; split; reflexivity.
Qed.

Lemma dispatch_sets_exactly_one_trigger_witness :
  exists p : list (string * pyval),
    calls (snd (trigger_email example_cfg (scripted C1_script) [("rec_id", "42")] init)) =
      [fetch_request example_cfg (Some "42"); update_request example_cfg p] /\
    form_lookup (data (update_request example_cfg p)) "data" =
      Some (FJsonDumps (PList [PDict p])) /\
    map fst p = ["record_id"; "cons_in_person_email"] /\
    dict_lookup p "cons_in_person_email" = Some (PStr "1") /\
    dict_lookup p "trigger_email" = None.
Proof.
  destruct (dispatch_sets_exactly_one_trigger example_cfg (scripted C1_script)
              [("rec_id", "42")] (Some "42")
              (mkResponse 200 ""
                 (Json (PList [PDict [("record_id", PStr "42");
                                      ("interested_consent", PStr "2")]])))
              [("record_id", PStr "42"); ("interested_consent", PStr "2")] [] init
              eq_refl eq_refl eq_refl (or_intror eq_refl))
    as [p [Hcalls [Hdata [Hkeys [_ [_ H2]]]]]].
  exists p. split; [exact Hcalls |]. split; [exact Hdata |].
  split; [exact Hkeys |]. exact (H2 eq_refl).
Defined.

(** C2.  Whenever the record read back from Project B has no consent entry,
    or one whose string form is neither "1" nor "2", [trigger_email] answers
    "No alert needed for this choice." with status 200, and the read is the
    only call it makes: no write reaches Project B. *)
Theorem dispatch_no_action_outside_choices
    (cfg : Config) (remote : list Request -> Request -> PostResult)
    (form : list (string * string)) (record_id : option string)
    (res : Response) (d : list (string * pyval)) (rest : list pyval) (w : World) :
  multidict_get form "rec_id" = record_id ->
  remote (calls w) (fetch_request cfg record_id) = PostReturns res ->
  json res = Json (PList (PDict d :: rest)) ->
  dict_lookup d "interested_consent" = None \/
    (consent_choice_of d <> "1" /\ consent_choice_of d <> "2") ->
  fst (trigger_email cfg remote form w) =
    Ok (Text "No alert needed for this choice.", 200) /\
  calls (snd (trigger_email cfg remote form w)) =
    (calls w ++ [fetch_request cfg record_id])%list /\
  writes (snd (trigger_email cfg remote form w)) = writes w.
Proof.
  intros Hid Hf Hj Hc. subst record_id.
  assert (H1 : String.eqb (consent_choice_of d) "1" = false).
  { apply String.eqb_neq. destruct Hc as [Hc | [Hc _]]; [| exact Hc].
    rewrite (absent_choice_is_empty d Hc). discriminate. }
  assert (H2 : String.eqb (consent_choice_of d) "2" = false).
  { apply String.eqb_neq. destruct Hc as [Hc | [_ Hc]]; [| exact Hc].
    rewrite (absent_choice_is_empty d Hc). discriminate. }
  rewrite (trigger_email_run cfg remote form res d rest w Hf Hj), H1, H2.
  cbn [fst snd calls]. repeat split.
  apply writes_after_read, fetch_is_not_a_write.
Qed.

Lemma dispatch_no_action_outside_choices_witness :
  fst (trigger_email example_cfg (scripted C2_script) [("rec_id", "42")] init) =
    Ok (Text "No alert needed for this choice.", 200) /\
  calls (snd (trigger_email example_cfg (scripted C2_script) [("rec_id", "42")] init)) =
    [fetch_request example_cfg (Some "42")] /\
  writes (snd (trigger_email example_cfg (scripted C2_script) [("rec_id", "42")] init)) = [].
Proof.
  apply (dispatch_no_action_outside_choices example_cfg (scripted C2_script)
           [("rec_id", "42")] (Some "42")
           (mkResponse 200 "" (Json (PList [PDict (example_record [])])))
           (example_record []) [] init);
    [reflexivity | reflexivity | reflexivity | left; reflexivity].
Defined.

(** ** Transfer orchestrator *)



(** C4.  Once the export has returned a record, any response to the import,
    whatever its status code (so in particular one outside 200..299), leaves
    [transfer_data] on its success path: it returns status 200 with the page
    whose block is chosen by the consent code of the exported record, and the
    status of the import appears only in the printed "Sync Event" line. *)
Theorem transfer_succeeds_whatever_import_status
    (cfg : Config) (remote : list Request -> Request -> PostResult)
    (args : list (string * string)) (rid : string)
    (ra rb : Response) (d : list (string * pyval)) (rest : list pyval) (w : World) :
  multidict_get args "record" = Some rid ->
  rid <> "" ->
  remote (calls w) (export_request cfg (Some rid)) = PostReturns ra ->
  json ra = Json (PList (PDict d :: rest)) ->
  remote (calls w ++ [export_request cfg (Some rid)])%list
         (import_request cfg (projection (Some rid) d)) = PostReturns rb ->
  fst (transfer_data cfg remote args w) =
    Ok (render_template_string rid (consent_choice_of d), 200) /\
  stdout (snd (transfer_data cfg remote args w)) =
    (stdout w ++ [("Sync Event: Record " ++ rid ++ " | Status: "
                   ++ str_of_int (status_code rb))%string])%list.
Proof.
  intros Hid Hne Ha Hj Hb.
  rewrite (transfer_data_run cfg remote args rid ra d rest w Hid Hne Ha Hj), Hb.
  split; reflexivity.
Qed.

Lemma transfer_succeeds_whatever_import_status_witness :
  fst (transfer_data example_cfg (scripted C4_script) [("record", "42")] init) =
    Ok (SyncedPage "42" (ElectronicConsentForm "42"), 200) /\
  stdout (snd (transfer_data example_cfg (scripted C4_script) [("record", "42")] init)) =
    ["Sync Event: Record 42 | Status: 403"].
Proof.
  apply (transfer_succeeds_whatever_import_status example_cfg (scripted C4_script)
           [("record", "42")] "42"
           (mkResponse 200 ""
              (Json (PList [PDict (example_record [("interested_consent", PStr "1")])])))
           (mkResponse 403 "You do not have permissions to use the API" (Json (PDict [])))
           (example_record [("interested_consent", PStr "1")]) [] init);
    [reflexivity | discriminate | reflexivity | reflexivity | reflexivity].
Defined.

(** C8.  For a present, non-empty id whose export succeeds with an empty
    list, [transfer_data] answers 404 with the "not found" message, and the
    export from Project A is the only call it makes: nothing is sent to
    Project B. *)
Theorem transfer_not_found_makes_no_target_call
    (cfg : Config) (remote : list Request -> Request -> PostResult)
    (args : list (string * string)) (rid : string) (ra : Response) (w : World) :
  multidict_get args "record" = Some rid ->
  rid <> "" ->
  remote (calls w) (export_request cfg (Some rid)) = PostReturns ra ->
  json ra = Json (PList []) ->
  fst (transfer_data cfg remote args w) =
    Ok (Text ("Error: Record " ++ rid
              ++ " not found in Project TRACE-AI Prospective Study."), 404) /\
  calls (snd (transfer_data cfg remote args w)) =
    (calls w ++ [export_request cfg (Some rid)])%list /\
  writes (snd (transfer_data cfg remote args w)) = writes w.
Proof.
  intros Hid Hne Ha Hj.
  unfold transfer_data. rewrite Hid, (py_not_nonempty rid Hne).
  unfold bind, try_except, transfer_try, bind, requests_post.
  fold (export_request cfg (Some rid)). rewrite Ha.
  unfold response_json. rewrite Hj. cbn -[String.append].
  repeat split.
  apply (writes_after_read w _ (stdout w)), export_is_not_a_write.
Qed.

Lemma transfer_not_found_makes_no_target_call_witness :
  fst (transfer_data example_cfg (scripted C8_script) [("record", "99")] init) =
    Ok (Text "Error: Record 99 not found in Project TRACE-AI Prospective Study.", 404) /\
  calls (snd (transfer_data example_cfg (scripted C8_script) [("record", "99")] init)) =
    [export_request example_cfg (Some "99")] /\
  writes (snd (transfer_data example_cfg (scripted C8_script) [("record", "99")] init)) = [].
Proof.
  apply (transfer_not_found_makes_no_target_call example_cfg (scripted C8_script)
           [("record", "99")] "99" (mkResponse 200 "" (Json (PList []))) init);
    [reflexivity | discriminate | reflexivity | reflexivity].
Defined.

(** ** Consent dispatcher: a rejected update *)

Lemma trigger_email_actionable_run
    (cfg : Config) (remote : list Request -> Request -> PostResult)
    (form : list (string * string)) (record_id : option string)
    (res : Response) (d : list (string * pyval)) (rest : list pyval) (w : World) :
  multidict_get form "rec_id" = record_id ->
  remote (calls w) (fetch_request cfg record_id) = PostReturns res ->
  json res = Json (PList (PDict d :: rest)) ->
  consent_choice_of d = "1" \/ consent_choice_of d = "2" ->
  trigger_email cfg remote form w =
    send_update cfg remote record_id (consent_choice_of d)
      (trigger_payload_of record_id (consent_choice_of d))
      (mkWorld (calls w ++ [fetch_request cfg record_id]) (stdout w)).
Proof.
  intros Hid Hf Hj Hc. subst record_id.
  rewrite (trigger_email_run cfg remote form res d rest w Hf Hj).
  destruct Hc as [Hc | Hc]; rewrite Hc; reflexivity.
Qed.

(** C5, as the code has it.  When [trigger_email] reaches the update and the
    response has a status other than 200 (so in particular any status outside
    200..299), the failure is recorded on standard output only: a
    "REDCAP ERROR" line carrying the response body and the closing
    "Email Alert Triggered" line carrying body and status.  The value returned
    is the "Action Complete" page with status 200, the same as after an
    accepted update. *)
Theorem dispatch_rejected_update_is_only_logged
    (cfg : Config) (remote : list Request -> Request -> PostResult)
    (form : list (string * string)) (record_id : option string)
    (res ru : Response) (d : list (string * pyval)) (rest : list pyval) (w : World) :
  multidict_get form "rec_id" = record_id ->
  remote (calls w) (fetch_request cfg record_id) = PostReturns res ->
  json res = Json (PList (PDict d :: rest)) ->
  consent_choice_of d = "1" \/ consent_choice_of d = "2" ->
  remote (calls w ++ [fetch_request cfg record_id])%list
         (update_request cfg (trigger_payload_of record_id (consent_choice_of d)))
    = PostReturns ru ->
  status_code ru <> 200 ->
  fst (trigger_email cfg remote form w) = Ok (ActionCompletePage, 200) /\
  stdout (snd (trigger_email cfg remote form w)) =
    (stdout w ++
     [ ("REDCAP ERROR for Record " ++ fmt record_id ++ ": " ++ text ru)%string;
       ("Email Alert Triggered: Record " ++ fmt record_id ++ " | Response: "
        ++ text ru ++ ". |  Status: " ++ str_of_int (status_code ru)
        ++ " for Choice " ++ consent_choice_of d)%string ])%list.
Proof.
  intros Hid Hf Hj Hc Hu Hs.
  rewrite (trigger_email_actionable_run cfg remote form record_id res d rest w
             Hid Hf Hj Hc).
  rewrite send_update_run. cbn [calls stdout]. rewrite Hu.
  apply Z.eqb_neq in Hs. rewrite Hs. split; reflexivity.
Qed.

Lemma dispatch_rejected_update_is_only_logged_witness :
  fst (trigger_email example_cfg (scripted C5_rejected_script) [("rec_id", "42")] init) =
    Ok (ActionCompletePage, 200) /\
  stdout (snd (trigger_email example_cfg (scripted C5_rejected_script)
                 [("rec_id", "42")] init)) =
    [ "REDCAP ERROR for Record 42: ERROR: invalid field";
      "Email Alert Triggered: Record 42 | Response: ERROR: invalid field. |  Status: 400 for Choice 1" ].
Proof.
  apply (dispatch_rejected_update_is_only_logged example_cfg
           (scripted C5_rejected_script) [("rec_id", "42")] (Some "42")
           (mkResponse 200 ""
              (Json (PList [PDict [("record_id", PStr "42");
                                   ("interested_consent", PStr "1")]])))
           (mkResponse 400 "ERROR: invalid field"
              (Json (PDict [("error", PStr "invalid field")])))
           [("record_id", PStr "42"); ("interested_consent", PStr "1")] [] init);
    [reflexivity | reflexivity | reflexivity | left; reflexivity | reflexivity
    | discriminate].
Defined.

(** C5 fails as stated: with choice "1" stored and the update answered by
    status 400, [trigger_email] returns exactly what it returns when the
    update is accepted, so the returned value does not tell the two apart. *)
Lemma dispatch_return_hides_rejected_update :
  nth_error C5_rejected_script 1 =
    Some (respond 400 "ERROR: invalid field" (PDict [("error", PStr "invalid field")])) /\
  fst (trigger_email example_cfg (scripted C5_rejected_script) [("rec_id", "42")] init) =
    Ok (ActionCompletePage, 200) /\
  fst (trigger_email example_cfg (scripted C5_rejected_script) [("rec_id", "42")] init) =
  fst (trigger_email example_cfg (scripted C5_accepted_script) [("rec_id", "42")] init).
Proof. repeat split. Qed.

(** ** Consent dispatcher: failures of the read-back *)

(** An empty list read back from Project B is caught: the [IndexError] of
    [[0]] becomes the 500 answer, and no update is sent. *)
Lemma trigger_email_no_records
    (cfg : Config) (remote : list Request -> Request -> PostResult)
    (form : list (string * string)) (res : Response) (w : World) :
  remote (calls w) (fetch_request cfg (multidict_get form "rec_id")) = PostReturns res ->
  json res = Json (PList []) ->
  trigger_email cfg remote form w =
    (Ok (Text "Error: Could not retrieve record details from Project B.", 500),
     mkWorld (calls w ++ [fetch_request cfg (multidict_get form "rec_id")]) (stdout w)).
Proof.
  intros Hf Hj. unfold trigger_email.
  unfold bind at 1. unfold requests_post at 1.
  fold (fetch_request cfg (multidict_get form "rec_id")). rewrite Hf.
  unfold bind, try_except, trigger_try, bind, response_json. rewrite Hj.
  reflexivity.
Qed.

(** A body that is not JSON is not caught: [JSONDecodeError] is neither an
    [IndexError] nor a [KeyError] and leaves the handler. *)
Lemma trigger_email_unparsable
    (cfg : Config) (remote : list Request -> Request -> PostResult)
    (form : list (string * string)) (res : Response) (msg : string) (w : World) :
  remote (calls w) (fetch_request cfg (multidict_get form "rec_id")) = PostReturns res ->
  json res = NotJson msg ->
  fst (trigger_email cfg remote form w) = Raise (JSONDecodeError msg).
Proof.
  intros Hf Hj. unfold trigger_email.
  unfold bind at 1. unfold requests_post at 1.
  fold (fetch_request cfg (multidict_get form "rec_id")). rewrite Hf.
  unfold bind, try_except, trigger_try, bind, response_json. rewrite Hj.
  reflexivity.
Qed.

(** A transport error of the read-back happens before the [try:] and leaves
    the handler as well. *)
Lemma trigger_email_transport_error
    (cfg : Config) (remote : list Request -> Request -> PostResult)
    (form : list (string * string)) (msg : string) (w : World) :
  remote (calls w) (fetch_request cfg (multidict_get form "rec_id")) = PostRaises msg ->
  fst (trigger_email cfg remote form w) = Raise (RequestException msg).
Proof.
  intros Hf. unfold trigger_email.
  unfold bind at 1. unfold requests_post at 1.
  fold (fetch_request cfg (multidict_get form "rec_id")). rewrite Hf.
  reflexivity.
Qed.

(** [transfer_data], by contrast, wraps both of its calls in
    [except Exception] and always returns a response. *)
Lemma transfer_data_never_raises
    (cfg : Config) (remote : list Request -> Request -> PostResult)
    (args : list (string * string)) (w : World) :
  exists r : HttpReturn, fst (transfer_data cfg remote args w) = Ok r.
Proof.
  unfold transfer_data. destruct (py_not _); [eexists; reflexivity |].
  unfold bind at 1. unfold try_except, Exception.
  destruct (transfer_try cfg remote _ w) as [[[early | choice] | e] w'];
    eexists; reflexivity.
Qed.

(** C6, at a failing input: Project B answers the read-back with a gateway
    error page.  [response.json()] raises [JSONDecodeError], which
    [except (IndexError, KeyError)] does not catch, so the exception leaves
    [trigger_email] instead of becoming the 500 "Could not retrieve record
    details" answer. *)
Lemma dispatch_unparsable_read_back_escapes :
  fst (trigger_email example_cfg (scripted C6_script) [("rec_id", "42")] init) =
    Raise (JSONDecodeError "Expecting value: line 1 column 1 (char 0)") /\
  fst (trigger_email example_cfg (scripted []) [("rec_id", "42")] init) =
    Raise (RequestException "Connection refused").
Proof. split; reflexivity. Qed.

(** ** Missing record identifier *)

(** [transfer_data] rejects a missing or empty [record] before any call. *)
Lemma transfer_data_missing_id
    (cfg : Config) (remote : list Request -> Request -> PostResult)
    (args : list (string * string)) (w : World) :
  multidict_get args "record" = None \/ multidict_get args "record" = Some "" ->
  transfer_data cfg remote args w = (Ok (Text "Error: No record ID provided.", 400), w).
Proof.
  intros [H | H]; unfold transfer_data; rewrite H; reflexivity.
Qed.

(** [trigger_email] has no such guard: whatever the form holds, its first
    step is the read-back call. *)
Lemma trigger_email_always_calls
    (cfg : Config) (remote : list Request -> Request -> PostResult)
    (form : list (string * string)) (w : World) :
  exists more : list Request,
    calls (snd (trigger_email cfg remote form w)) =
      (calls w ++ fetch_request cfg (multidict_get form "rec_id") :: more)%list.
Proof.
  unfold trigger_email.
  unfold bind at 1. unfold requests_post at 1.
  fold (fetch_request cfg (multidict_get form "rec_id")).
  destruct (remote (calls w) _) as [msg | res]; [exists []; reflexivity |].
  unfold bind at 1. unfold try_except, trigger_try, bind, response_json.
  destruct (json res) as [msg | j]; [exists []; reflexivity |].
  cbn [ret lift].
  destruct (py_getitem0 j) as [data | e];
    [| destruct (IndexError_or_KeyError e); exists []; reflexivity].
  destruct (py_get data "interested_consent" (PStr "")) as [ic | e];
    [| destruct (IndexError_or_KeyError e); exists []; reflexivity].
  cbn [ret].
  destruct (String.eqb (py_str ic) "1");
    [rewrite send_update_run; cbn [calls]; destruct_post; cbn [snd calls];
     rewrite <- app_assoc; eexists; reflexivity |].
  destruct (String.eqb (py_str ic) "2");
    [rewrite send_update_run; cbn [calls]; destruct_post; cbn [snd calls];
     rewrite <- app_assoc; eexists; reflexivity |].
  exists []; reflexivity.
Qed.

(** C7, at a failing input: a POST to /trigger-email without the [rec_id]
    field.  [trigger_email] does not answer 400: it reads Project B with
    [records[0]] set to [None], takes the first record of the answer, and
    sends an update whose record id is null, ending with status 200.  An
    empty [rec_id] is not rejected either. *)
Lemma dispatch_accepts_missing_id :
  multidict_get [] "rec_id" = None /\
  fst (trigger_email example_cfg (scripted C7_script) [] init) =
    Ok (ActionCompletePage, 200) /\
  calls (snd (trigger_email example_cfg (scripted C7_script) [] init)) =
    [ fetch_request example_cfg None;
      update_request example_cfg [("record_id", PNone); ("trigger_email", PStr "1")] ] /\
  fst (trigger_email example_cfg (scripted C2_script) [("rec_id", "")] init) =
    Ok (Text "No alert needed for this choice.", 200).
Proof. repeat split. Qed.

(** ** Projection of the exported record *)




(** ** A null consent value *)

(** C10.  When the fetched record maps interested_consent to null, both
    handlers derive the four-character text "None", not the empty string.
    [transfer_data] sends that text in the record it imports into Project B
    and, once the import has answered, renders the warning block showing it.
    [trigger_email] prints "No consent alert sent ... (Choice: None)", answers
    "No alert needed for this choice." and writes nothing. *)
Theorem null_consent_becomes_None_text
    (cfg : Config) (remote : list Request -> Request -> PostResult)
    (args form : list (string * string)) (rid : string) (record_id : option string)
    (ra rb res : Response) (d d' : list (string * pyval)) (rest rest' : list pyval)
    (w w' : World) :
  multidict_get args "record" = Some rid ->
  rid <> "" ->
  remote (calls w) (export_request cfg (Some rid)) = PostReturns ra ->
  json ra = Json (PList (PDict d :: rest)) ->
  dict_lookup d "interested_consent" = Some PNone ->
  remote (calls w ++ [export_request cfg (Some rid)])%list
         (import_request cfg (projection (Some rid) d)) = PostReturns rb ->
  multidict_get form "rec_id" = record_id ->
  remote (calls w') (fetch_request cfg record_id) = PostReturns res ->
  json res = Json (PList (PDict d' :: rest')) ->
  dict_lookup d' "interested_consent" = Some PNone ->
  consent_choice_of d = "None" /\
  consent_choice_of d' = "None" /\
  (exists clean : list (string * pyval),
     calls (snd (transfer_data cfg remote args w)) =
       (calls w ++ [export_request cfg (Some rid); import_request cfg clean])%list /\
     form_lookup (data (import_request cfg clean)) "data" =
       Some (FJsonDumps (PList [PDict clean])) /\
     dict_lookup clean "interested_consent" = Some (PStr "None")) /\
  fst (transfer_data cfg remote args w) =
    Ok (SyncedPage rid (NoPreferenceWarning "None"), 200) /\
  fst (trigger_email cfg remote form w') =
    Ok (Text "No alert needed for this choice.", 200) /\
  stdout (snd (trigger_email cfg remote form w')) =
    (stdout w' ++ [("No consent alert sent for Record " ++ fmt record_id
                    ++ " (Choice: None)")%string])%list /\
  writes (snd (trigger_email cfg remote form w')) = writes w'.
Proof.
  intros Hid Hne Ha Hj Hn Hb Hfid Hf Hj' Hn'.
  assert (Hc : consent_choice_of d = "None").
  { unfold consent_choice_of, dict_get. rewrite Hn. reflexivity. }
  assert (Hc' : consent_choice_of d' = "None").
  { unfold consent_choice_of, dict_get. rewrite Hn'. reflexivity. }
  split; [exact Hc |]. split; [exact Hc' |].
  split.
  { exists (projection (Some rid) d).
    rewrite (transfer_data_run cfg remote args rid ra d rest w Hid Hne Ha Hj), Hb.
    cbn [snd calls]. rewrite <- app_assoc. split; [reflexivity |].
    split; [reflexivity |].
    transitivity (Some (PStr (consent_choice_of d))); [reflexivity |].
    rewrite Hc. reflexivity. }
  split.
  { rewrite (transfer_data_run cfg remote args rid ra d rest w Hid Hne Ha Hj), Hb.
    cbn [fst]. rewrite Hc. reflexivity. }
  subst record_id.
  rewrite (trigger_email_run cfg remote form res d' rest' w' Hf Hj'), Hc'.
  cbn [fst snd String.eqb Ascii.eqb Bool.eqb calls stdout].
  split; [reflexivity |]. split; [reflexivity |].
  apply writes_after_read, fetch_is_not_a_write.
Qed.

Lemma null_consent_becomes_None_text_witness :
  fst (transfer_data example_cfg (scripted C10_script) [("record", "42")] init) =
    Ok (SyncedPage "42" (NoPreferenceWarning "None"), 200) /\
  fst (trigger_email example_cfg (scripted C10_script) [("rec_id", "42")]
         (snd (transfer_data example_cfg (scripted C10_script) [("record", "42")] init))) =
    Ok (Text "No alert needed for this choice.", 200) /\
  stdout (snd (trigger_email example_cfg (scripted C10_script) [("rec_id", "42")]
                 (snd (transfer_data example_cfg (scripted C10_script)
                         [("record", "42")] init)))) =
    [ "Sync Event: Record 42 | Status: 200";
      "No consent alert sent for Record 42 (Choice: None)" ].
Proof.
  destruct (null_consent_becomes_None_text example_cfg (scripted C10_script)
              [("record", "42")] [("rec_id", "42")] "42" (Some "42")
              (mkResponse 200 ""
                 (Json (PList [PDict (example_record [("interested_consent", PNone)])])))
              (mkResponse 200 "" (Json (PDict [("count", PInt 1)])))
              (mkResponse 200 ""
                 (Json (PList [PDict [("record_id", PStr "42");
                                      ("interested_consent", PNone)]])))
              (example_record [("interested_consent", PNone)])
              [("record_id", PStr "42"); ("interested_consent", PNone)] [] [] init
              (snd (transfer_data example_cfg (scripted C10_script)
                      [("record", "42")] init)))
    as [_ [_ [_ [Ht [Hd [Hout _]]]]]];
    [reflexivity | discriminate | reflexivity | reflexivity | reflexivity
    | reflexivity | reflexivity | reflexivity | reflexivity | reflexivity |].
  split; [exact Ht |]. split; [exact Hd | exact Hout].
Defined.

(** ** Every way [transfer_data] can end *)

Section TransferOutcomes.

Variable cfg : Config.
Variable remote : list Request -> Request -> PostResult.
Variable args : list (string * string).
Variable rid : string.
Variable w : World.

Hypothesis Hid : multidict_get args "record" = Some rid.
Hypothesis Hne : rid <> "".

Let w1 : World := mkWorld (calls w ++ [export_request cfg (Some rid)]) (stdout w).

Let system_error (m : string) : Result HttpReturn * World :=
  (Ok (Text ("System Error during transfer: " ++ m), 500), w1).

Lemma transfer_data_export_raises (msg : string) :
  remote (calls w) (export_request cfg (Some rid)) = PostRaises msg ->
  transfer_data cfg remote args w = system_error msg.
Proof.
  intros Ha. unfold transfer_data. rewrite Hid, (py_not_nonempty rid Hne).
  unfold bind, try_except, transfer_try, bind, requests_post.
  fold (export_request cfg (Some rid)). rewrite Ha. reflexivity.
Qed.

Lemma transfer_data_export_not_json (ra : Response) (msg : string) :
  remote (calls w) (export_request cfg (Some rid)) = PostReturns ra ->
  json ra = NotJson msg ->
  transfer_data cfg remote args w = system_error msg.
Proof.
  intros Ha Hj. unfold transfer_data. rewrite Hid, (py_not_nonempty rid Hne).
  unfold bind, try_except, transfer_try, bind, requests_post.
  fold (export_request cfg (Some rid)). rewrite Ha.
  unfold response_json. rewrite Hj. reflexivity.
Qed.

Lemma transfer_data_export_falsy (ra : Response) (v : pyval) :
  remote (calls w) (export_request cfg (Some rid)) = PostReturns ra ->
  json ra = Json v ->
  py_truth v = false ->
  transfer_data cfg remote args w =
    (Ok (Text ("Error: Record " ++ rid
               ++ " not found in Project TRACE-AI Prospective Study."), 404), w1).
Proof.
  intros Ha Hj Hv. unfold transfer_data. rewrite Hid, (py_not_nonempty rid Hne).
  unfold bind, try_except, transfer_try, bind, requests_post.
  fold (export_request cfg (Some rid)). rewrite Ha.
  unfold response_json. rewrite Hj. cbn [ret]. rewrite Hv. reflexivity.
Qed.

Lemma transfer_data_export_unusable (ra : Response) (v : pyval) :
  remote (calls w) (export_request cfg (Some rid)) = PostReturns ra ->
  json ra = Json v ->
  py_truth v = true ->
  (forall d rest, v <> PList (PDict d :: rest)) ->
  exists m : string, transfer_data cfg remote args w = system_error m.
Proof.
  intros Ha Hj Hv Hshape. unfold transfer_data.
  rewrite Hid, (py_not_nonempty rid Hne).
  unfold bind, try_except, transfer_try, bind, requests_post.
  fold (export_request cfg (Some rid)). rewrite Ha.
  unfold response_json. rewrite Hj. cbn [ret]. rewrite Hv.
  destruct v as [| b | z | r | s | l | dd]; try discriminate Hv;
    try (eexists; reflexivity).
  - destruct s as [| c s]; [discriminate Hv |]. eexists; reflexivity.
  - destruct l as [| x l]; [discriminate Hv |].
    destruct x as [| b | z | r | s | l' | d];
      try (eexists; reflexivity).
    exfalso. exact (Hshape d l eq_refl).
  - destruct dd as [| kv dd]; [discriminate Hv |]. eexists; reflexivity.
Qed.

(** The four ways out, with the world each one leaves. *)
Lemma transfer_data_outcomes :
  (exists m : string, transfer_data cfg remote args w = system_error m) \/
  transfer_data cfg remote args w =
    (Ok (Text ("Error: Record " ++ rid
               ++ " not found in Project TRACE-AI Prospective Study."), 404), w1) \/
  (exists (ra : Response) (d : list (string * pyval)) (rest : list pyval),
     remote (calls w) (export_request cfg (Some rid)) = PostReturns ra /\
     json ra = Json (PList (PDict d :: rest)) /\
     let req_b := import_request cfg (projection (Some rid) d) in
     let w2 := mkWorld (calls w1 ++ [req_b]) in
     (exists m : string,
        transfer_data cfg remote args w =
          (Ok (Text ("System Error during transfer: " ++ m), 500), w2 (stdout w))) \/
     (exists line : string,
        transfer_data cfg remote args w =
          (Ok (render_template_string rid (consent_choice_of d), 200),
           w2 (stdout w ++ [line])%list))).
Proof.
  destruct (remote (calls w) (export_request cfg (Some rid))) as [msg | ra] eqn:Ha.
  { left. exists msg. apply transfer_data_export_raises. exact Ha. }
  destruct (json ra) as [msg | v] eqn:Hj.
  { left. exists msg. apply (transfer_data_export_not_json ra); assumption. }
  destruct (py_truth v) eqn:Hv.
  2:{ right. left. apply (transfer_data_export_falsy ra v); assumption. }
  assert (Hcase : (exists d rest, v = PList (PDict d :: rest)) \/
                  (forall d rest, v <> PList (PDict d :: rest))).
  { destruct v as [| b | z | r | s | [| [| b | z | r | s | l' | d] l] | dd];
      try (right; intros ? ? E; discriminate E).
    left. exists d, l. reflexivity. }
  destruct Hcase as [[d [rest ->]] | Hshape].
  2:{ left. apply (transfer_data_export_unusable ra v); assumption. }
  right. right. exists ra, d, rest. split; [reflexivity |]. split; [exact Hj |].
  cbv zeta.
  rewrite (transfer_data_run cfg remote args rid ra d rest w Hid Hne Ha Hj).
  destruct_post; [left | right]; eexists; reflexivity.
Qed.

End TransferOutcomes.

(** ** Every way [trigger_email] can end *)

Lemma py_get_raises_attribute_error (v : pyval) (k : string) (dflt : pyval) (e : exn) :
  py_get v k dflt = Raise e -> IndexError_or_KeyError e = false.
Proof.
  destruct v; cbn; intros H; try discriminate H; injection H as <-; reflexivity.
Qed.

Lemma trigger_email_outcomes
    (cfg : Config) (remote : list Request -> Request -> PostResult)
    (form : list (string * string)) (w : World) :
  let record_id := multidict_get form "rec_id" in
  let w1 := mkWorld (calls w ++ [fetch_request cfg record_id]) (stdout w) in
  (exists e : exn, trigger_email cfg remote form w = (Raise e, w1)) \/
  trigger_email cfg remote form w =
    (Ok (Text "Error: Could not retrieve record details from Project B.", 500), w1) \/
  (exists line : string,
     trigger_email cfg remote form w =
       (Ok (Text "No alert needed for this choice.", 200),
        mkWorld (calls w1) (stdout w ++ [line])%list)) \/
  (exists choice : string,
     (choice = "1" \/ choice = "2") /\
     trigger_email cfg remote form w =
       send_update cfg remote record_id choice (trigger_payload_of record_id choice) w1).
Proof.
  intros record_id w1.
  remember (trigger_email cfg remote form w) as t eqn:Ht.
  unfold trigger_email in Ht. fold record_id in Ht.
  unfold bind at 1 in Ht. unfold requests_post at 1 in Ht.
  fold (fetch_request cfg record_id) in Ht.
  destruct (remote (calls w) _) as [msg | res]; fold w1 in Ht;
    [left; eexists; exact Ht |].
  unfold bind at 1 in Ht. unfold try_except, trigger_try, bind, response_json in Ht.
  destruct (json res) as [msg | j]; [left; eexists; exact Ht |].
  cbn [ret lift] in Ht.
  destruct (py_getitem0 j) as [data | e].
  2:{ destruct (IndexError_or_KeyError e);
        [right; left; exact Ht | left; eexists; exact Ht]. }
  destruct (py_get data "interested_consent" (PStr "")) as [ic | e] eqn:Hg.
  2:{ rewrite (py_get_raises_attribute_error _ _ _ _ Hg) in Ht.
      left; eexists; exact Ht. }
  cbn [ret] in Ht.
  destruct (String.eqb_spec (py_str ic) "1") as [E1 | _].
  { right. right. right. exists "1". split; [left; reflexivity |].
    rewrite E1 in Ht. exact Ht. }
  destruct (String.eqb_spec (py_str ic) "2") as [E2 | _].
  { right. right. right. exists "2". split; [right; reflexivity |].
    rewrite E2 in Ht. exact Ht. }
  right. right. left. eexists. exact Ht.
Qed.

(** The calls a handler adds: at most two, at most one of them a write. *)
Lemma send_update_calls
    (cfg : Config) (remote : list Request -> Request -> PostResult)
    (record_id : option string) (choice : string) (p : list (string * pyval))
    (w : World) :
  calls (snd (send_update cfg remote record_id choice p w)) =
    (calls w ++ [update_request cfg p])%list.
Proof. rewrite send_update_run. destruct_post; reflexivity. Qed.

Lemma trigger_email_new_calls
    (cfg : Config) (remote : list Request -> Request -> PostResult)
    (form : list (string * string)) (w : World) :
  let record_id := multidict_get form "rec_id" in
  calls (snd (trigger_email cfg remote form w)) =
    (calls w ++ [fetch_request cfg record_id])%list \/
  exists choice : string,
    (choice = "1" \/ choice = "2") /\
    calls (snd (trigger_email cfg remote form w)) =
      (calls w ++ [fetch_request cfg record_id;
                   update_request cfg (trigger_payload_of record_id choice)])%list.
Proof.
  intros record_id.
  destruct (trigger_email_outcomes cfg remote form w)
    as [[e H] | [H | [[line H] | [choice [Hc H]]]]];
    fold record_id in H; rewrite H.
  - left; reflexivity.
  - left; reflexivity.
  - left; reflexivity.
  - right. exists choice. split; [exact Hc |].
    rewrite send_update_calls. cbn [calls]. rewrite <- app_assoc. reflexivity.
Qed.

Lemma transfer_data_new_calls
    (cfg : Config) (remote : list Request -> Request -> PostResult)
    (args : list (string * string)) (w : World) :
  calls (snd (transfer_data cfg remote args w)) = calls w \/
  exists rid : string,
    multidict_get args "record" = Some rid /\ rid <> "" /\
    (calls (snd (transfer_data cfg remote args w)) =
       (calls w ++ [export_request cfg (Some rid)])%list \/
     exists (ra : Response) (d : list (string * pyval)) (rest : list pyval),
       remote (calls w) (export_request cfg (Some rid)) = PostReturns ra /\
       json ra = Json (PList (PDict d :: rest)) /\
       calls (snd (transfer_data cfg remote args w)) =
         (calls w ++ [export_request cfg (Some rid);
                      import_request cfg (projection (Some rid) d)])%list).
Proof.
  destruct (multidict_get args "record") as [rid |] eqn:Hid.
  2:{ left. rewrite transfer_data_missing_id; [reflexivity | left; exact Hid]. }
  destruct (String.eqb_spec rid "") as [-> | Hne].
  { left. rewrite transfer_data_missing_id; [reflexivity | right; exact Hid]. }
  right. exists rid. split; [reflexivity |]. split; [exact Hne |].
  destruct (transfer_data_outcomes cfg remote args rid w Hid Hne)
    as [[m H] | [H | [ra [d [rest [Ha [Hj H]]]]]]].
  - left. rewrite H. reflexivity.
  - left. rewrite H. reflexivity.
  - right. exists ra, d, rest. split; [exact Ha |]. split; [exact Hj |].
    cbv zeta in H. destruct H as [[m H] | [line H]]; rewrite H; cbn [snd calls];
      rewrite <- app_assoc; reflexivity.
Qed.

Lemma writes_app (cs : list Request) (out : list string) (new : list Request) (w : World) :
  cs = (calls w ++ new)%list ->
  writes (mkWorld cs out) = (writes w ++ filter is_write new)%list.
Proof. intros ->. unfold writes. cbn [calls]. apply filter_app. Qed.

Lemma world_eta (w : World) : mkWorld (calls w) (stdout w) = w.
Proof. destruct w; reflexivity. Qed.

(** ** [transfer_data]: answers and calls in every case *)

(** [transfer_data] returns a response on every input and against every
    server: no exception leaves it, and the status is 200, 400, 404 or 500. *)
Theorem transfer_data_always_answers
    (cfg : Config) (remote : list Request -> Request -> PostResult)
    (args : list (string * string)) (w : World) :
  exists (body : Body) (status : Z),
    fst (transfer_data cfg remote args w) = Ok (body, status) /\
    (status = 200 \/ status = 400 \/ status = 404 \/ status = 500).
Proof.
  destruct (multidict_get args "record") as [rid |] eqn:Hid.
  2:{ rewrite transfer_data_missing_id; [| left; exact Hid].
      do 2 eexists. split; [reflexivity | tauto]. }
  destruct (String.eqb_spec rid "") as [-> | Hne].
  { rewrite transfer_data_missing_id; [| right; exact Hid].
    do 2 eexists. split; [reflexivity | tauto]. }
  destruct (transfer_data_outcomes cfg remote args rid w Hid Hne)
    as [[m H] | [H | [ra [d [rest [_ [_ H]]]]]]].
  - rewrite H. do 2 eexists. split; [reflexivity | tauto].
  - rewrite H. do 2 eexists. split; [reflexivity | tauto].
  - cbv zeta in H. destruct H as [[m H] | [line H]]; rewrite H;
      do 2 eexists; (split; [reflexivity | tauto]).
Qed.

(** A request without the [record] parameter, or with an empty one, is
    answered 400 before anything else happens: no call, no printed line. *)
Theorem transfer_rejects_missing_id
    (cfg : Config) (remote : list Request -> Request -> PostResult)
    (args : list (string * string)) (w : World) :
  multidict_get args "record" = None \/ multidict_get args "record" = Some "" ->
  transfer_data cfg remote args w = (Ok (Text "Error: No record ID provided.", 400), w).
Proof.
  intros [H | H]; unfold transfer_data; rewrite H; reflexivity.
Qed.

Lemma transfer_rejects_missing_id_witness :
  transfer_data example_cfg (scripted C3_script) [("rec_id", "42"); ("record", "")] init =
    (Ok (Text "Error: No record ID provided.", 400), init).
Proof.
  apply (transfer_rejects_missing_id example_cfg (scripted C3_script)
           [("rec_id", "42"); ("record", "")] init).
  right. reflexivity.
Defined.

(** [transfer_data] makes at most two calls, and writes at most once: the
    only write it ever sends is the import of the projection of a record that
    the export of the requested id has just returned. *)
Theorem transfer_writes_only_an_exported_record
    (cfg : Config) (remote : list Request -> Request -> PostResult)
    (args : list (string * string)) (w : World) :
  (List.length (calls (snd (transfer_data cfg remote args w)))
     <= List.length (calls w) + 2)%nat /\
  (writes (snd (transfer_data cfg remote args w)) = writes w \/
   exists (rid : string) (ra : Response) (d : list (string * pyval)) (rest : list pyval),
     multidict_get args "record" = Some rid /\
     remote (calls w) (export_request cfg (Some rid)) = PostReturns ra /\
     json ra = Json (PList (PDict d :: rest)) /\
     writes (snd (transfer_data cfg remote args w)) =
       (writes w ++ [import_request cfg (projection (Some rid) d)])%list).
Proof.
  destruct (transfer_data_new_calls cfg remote args w)
    as [H | [rid [Hid [Hne [H | [ra [d [rest [Ha [Hj H]]]]]]]]]].
  - split; [rewrite H; lia |]. left. unfold writes. rewrite H. reflexivity.
  - split; [rewrite H, length_app; cbn; lia |]. left.
    unfold writes. rewrite H, filter_app. cbn. apply app_nil_r.
  - split; [rewrite H, length_app; cbn; lia |]. right.
    exists rid, ra, d, rest. repeat (split; [assumption |]).
    unfold writes. rewrite H, filter_app. reflexivity.
Qed.

(** When the export cannot be used at all (the transport fails, or the
    body is not JSON) the answer is 500 with the error text, and the
    export is the only call made. *)
Theorem transfer_export_failure_is_500
    (cfg : Config) (remote : list Request -> Request -> PostResult)
    (args : list (string * string)) (rid msg : string) (w : World) :
  multidict_get args "record" = Some rid ->
  rid <> "" ->
  remote (calls w) (export_request cfg (Some rid)) = PostRaises msg \/
    (exists ra : Response,
       remote (calls w) (export_request cfg (Some rid)) = PostReturns ra /\
       json ra = NotJson msg) ->
  transfer_data cfg remote args w =
    (Ok (Text ("System Error during transfer: " ++ msg), 500),
     mkWorld (calls w ++ [export_request cfg (Some rid)]) (stdout w)).
Proof.
  intros Hid Hne [Ha | [ra [Ha Hj]]].
  - apply transfer_data_export_raises; assumption.
  - apply (transfer_data_export_not_json cfg remote args rid w Hid Hne ra); assumption.
Qed.

Lemma transfer_export_failure_is_500_witness :
  transfer_data example_cfg (scripted []) [("record", "42")] init =
    (Ok (Text "System Error during transfer: Connection refused", 500),
     mkWorld [export_request example_cfg (Some "42")] []).
Proof.
  apply (transfer_export_failure_is_500 example_cfg (scripted [])
           [("record", "42")] "42" "Connection refused" init);
    [reflexivity | discriminate | left; reflexivity].
Defined.

(** When the export answers with a non-empty JSON object instead of a list
    (the shape of a REDCap error such as a bad token), [records[0]] raises
    [KeyError(0)]: the answer is 500 with the text "System Error during
    transfer: 0", and nothing is sent to Project B. *)
Theorem transfer_error_object_is_500
    (cfg : Config) (remote : list Request -> Request -> PostResult)
    (args : list (string * string)) (rid : string) (ra : Response)
    (k : string) (v : pyval) (more : list (string * pyval)) (w : World) :
  multidict_get args "record" = Some rid ->
  rid <> "" ->
  remote (calls w) (export_request cfg (Some rid)) = PostReturns ra ->
  json ra = Json (PDict ((k, v) :: more)) ->
  transfer_data cfg remote args w =
    (Ok (Text "System Error during transfer: 0", 500),
     mkWorld (calls w ++ [export_request cfg (Some rid)]) (stdout w)).
Proof.
  intros Hid Hne Ha Hj. unfold transfer_data.
  rewrite Hid, (py_not_nonempty rid Hne).
  unfold bind, try_except, transfer_try, bind, requests_post.
  fold (export_request cfg (Some rid)). rewrite Ha.
  unfold response_json. rewrite Hj. reflexivity.
Qed.

Lemma transfer_error_object_is_500_witness :
  transfer_data example_cfg
    (scripted [respond 403 "" (PDict [("error", PStr "You do not have permissions to use the API")])])
    [("record", "42")] init =
    (Ok (Text "System Error during transfer: 0", 500),
     mkWorld [export_request example_cfg (Some "42")] []).
Proof.
  apply (transfer_error_object_is_500 example_cfg
           (scripted [respond 403 "" (PDict [("error", PStr "You do not have permissions to use the API")])])
           [("record", "42")] "42"
           (mkResponse 403 ""
              (Json (PDict [("error", PStr "You do not have permissions to use the API")])))
           "error" (PStr "You do not have permissions to use the API") [] init);
    [reflexivity | discriminate | reflexivity | reflexivity].
Defined.

(** Any export body that Python counts as false (null, false, 0, the empty
    string, the empty list or the empty object) is reported as "not found"
    with status 404, with the export as the only call. *)
Theorem transfer_falsy_body_is_404
    (cfg : Config) (remote : list Request -> Request -> PostResult)
    (args : list (string * string)) (rid : string) (ra : Response) (v : pyval)
    (w : World) :
  multidict_get args "record" = Some rid ->
  rid <> "" ->
  remote (calls w) (export_request cfg (Some rid)) = PostReturns ra ->
  json ra = Json v ->
  In v [PNone; PBool false; PInt 0; PStr ""; PList []; PDict []] ->
  transfer_data cfg remote args w =
    (Ok (Text ("Error: Record " ++ rid
               ++ " not found in Project TRACE-AI Prospective Study."), 404),
     mkWorld (calls w ++ [export_request cfg (Some rid)]) (stdout w)).
Proof.
  intros Hid Hne Ha Hj Hv.
  apply (transfer_data_export_falsy cfg remote args rid w Hid Hne ra v Ha Hj).
  cbn in Hv. decompose [or] Hv; subst; try reflexivity; contradiction.
Qed.

Lemma transfer_falsy_body_is_404_witness :
  transfer_data example_cfg (scripted [ok_response PNone]) [("record", "7")] init =
    (Ok (Text "Error: Record 7 not found in Project TRACE-AI Prospective Study.", 404),
     mkWorld [export_request example_cfg (Some "7")] []).
Proof.
  apply (transfer_falsy_body_is_404 example_cfg (scripted [ok_response PNone])
           [("record", "7")] "7" (mkResponse 200 "" (Json PNone)) PNone init);
    [reflexivity | discriminate | reflexivity | reflexivity | left; reflexivity].
Defined.

(** A transport error on the import, unlike a bad status, does fail the
    request: the answer is 500 with the error text, after both calls have
    been attempted and without the "Sync Event" line. *)
Theorem transfer_import_transport_error_is_500
    (cfg : Config) (remote : list Request -> Request -> PostResult)
    (args : list (string * string)) (rid msg : string)
    (ra : Response) (d : list (string * pyval)) (rest : list pyval) (w : World) :
  multidict_get args "record" = Some rid ->
  rid <> "" ->
  remote (calls w) (export_request cfg (Some rid)) = PostReturns ra ->
  json ra = Json (PList (PDict d :: rest)) ->
  remote (calls w ++ [export_request cfg (Some rid)])%list
         (import_request cfg (projection (Some rid) d)) = PostRaises msg ->
  transfer_data cfg remote args w =
    (Ok (Text ("System Error during transfer: " ++ msg), 500),
     mkWorld (calls w ++ [export_request cfg (Some rid);
                          import_request cfg (projection (Some rid) d)])
             (stdout w)).
Proof.
  intros Hid Hne Ha Hj Hb.
  rewrite (transfer_data_run cfg remote args rid ra d rest w Hid Hne Ha Hj), Hb.
  rewrite <- app_assoc. reflexivity.
Qed.

Lemma transfer_import_transport_error_is_500_witness :
  transfer_data example_cfg
    (scripted [ok_response (PList [PDict (example_record [("interested_consent", PStr "1")])])])
    [("record", "42")] init =
    (Ok (Text "System Error during transfer: Connection refused", 500),
     mkWorld [export_request example_cfg (Some "42");
              import_request example_cfg
                (projection (Some "42") (example_record [("interested_consent", PStr "1")]))]
             []).
Proof.
  apply (transfer_import_transport_error_is_500 example_cfg
           (scripted [ok_response (PList [PDict (example_record [("interested_consent", PStr "1")])])])
           [("record", "42")] "42" "Connection refused"
           (mkResponse 200 ""
              (Json (PList [PDict (example_record [("interested_consent", PStr "1")])])))
           (example_record [("interested_consent", PStr "1")]) [] init);
    [reflexivity | discriminate | reflexivity | reflexivity | reflexivity].
Defined.

(** ** [trigger_email]: answers and calls in every case *)

(** Whenever [trigger_email] returns a response it is one of three: the 500
    "Could not retrieve" text or the 200 "No alert needed" text, both with
    nothing written to Project B, or the 200 closing page after exactly one
    update.  Every other run ends in an exception leaving the handler. *)
Theorem trigger_email_answers
    (cfg : Config) (remote : list Request -> Request -> PostResult)
    (form : list (string * string)) (w : World) :
  (exists e : exn, fst (trigger_email cfg remote form w) = Raise e) \/
  (fst (trigger_email cfg remote form w) =
     Ok (Text "Error: Could not retrieve record details from Project B.", 500) /\
   writes (snd (trigger_email cfg remote form w)) = writes w) \/
  (fst (trigger_email cfg remote form w) =
     Ok (Text "No alert needed for this choice.", 200) /\
   writes (snd (trigger_email cfg remote form w)) = writes w) \/
  (fst (trigger_email cfg remote form w) = Ok (ActionCompletePage, 200) /\
   exists p : list (string * pyval),
     writes (snd (trigger_email cfg remote form w)) =
       (writes w ++ [update_request cfg p])%list).
Proof.
  destruct (trigger_email_outcomes cfg remote form w)
    as [[e H] | [H | [[line H] | [choice [Hc H]]]]]; rewrite H.
  - left. exists e. reflexivity.
  - right. left. split; [reflexivity |].
    apply writes_after_read, fetch_is_not_a_write.
  - right. right. left. split; [reflexivity |].
    apply (writes_after_read w _ _), fetch_is_not_a_write.
  - rewrite send_update_run. cbn [calls stdout]. destruct_post.
    + left. eexists. reflexivity.
    + right. right. right. split; [reflexivity |].
      exists (trigger_payload_of (multidict_get form "rec_id") choice).
      cbn [snd]. rewrite (writes_app _ _
        [fetch_request cfg (multidict_get form "rec_id");
         update_request cfg (trigger_payload_of (multidict_get form "rec_id") choice)] w).
      * reflexivity.
      * rewrite <- app_assoc. reflexivity.
Qed.

(** A read-back that parses but holds no first record (an empty list, an
    empty string, or a JSON object such as a REDCap error) is answered 500
    "Could not retrieve record details", with the read-back as the only call. *)
Theorem trigger_email_caught_read_back
    (cfg : Config) (remote : list Request -> Request -> PostResult)
    (form : list (string * string)) (res : Response) (j : pyval) (w : World) :
  remote (calls w) (fetch_request cfg (multidict_get form "rec_id")) = PostReturns res ->
  json res = Json j ->
  j = PList [] \/ j = PStr "" \/ (exists dd, j = PDict dd) ->
  trigger_email cfg remote form w =
    (Ok (Text "Error: Could not retrieve record details from Project B.", 500),
     mkWorld (calls w ++ [fetch_request cfg (multidict_get form "rec_id")]) (stdout w)).
Proof.
  intros Hf Hj Hshape. unfold trigger_email.
  unfold bind at 1. unfold requests_post at 1.
  fold (fetch_request cfg (multidict_get form "rec_id")). rewrite Hf.
  unfold bind, try_except, trigger_try, bind, response_json. rewrite Hj.
  destruct Hshape as [-> | [-> | [dd ->]]]; reflexivity.
Qed.

Lemma trigger_email_caught_read_back_witness :
  trigger_email example_cfg
    (scripted [respond 403 "" (PDict [("error", PStr "You do not have permissions to use the API")])])
    [("rec_id", "42")] init =
    (Ok (Text "Error: Could not retrieve record details from Project B.", 500),
     mkWorld [fetch_request example_cfg (Some "42")] []).
Proof.
  apply (trigger_email_caught_read_back example_cfg
           (scripted [respond 403 "" (PDict [("error", PStr "You do not have permissions to use the API")])])
           [("rec_id", "42")]
           (mkResponse 403 ""
              (Json (PDict [("error", PStr "You do not have permissions to use the API")])))
           (PDict [("error", PStr "You do not have permissions to use the API")]) init);
    [reflexivity | reflexivity | right; right; eexists; reflexivity].
Defined.

(** A transport error on the update is not caught: it leaves the handler
    after the update has been attempted, and nothing is printed. *)
Theorem trigger_email_update_transport_error
    (cfg : Config) (remote : list Request -> Request -> PostResult)
    (form : list (string * string)) (record_id : option string) (msg : string)
    (res : Response) (d : list (string * pyval)) (rest : list pyval) (w : World) :
  multidict_get form "rec_id" = record_id ->
  remote (calls w) (fetch_request cfg record_id) = PostReturns res ->
  json res = Json (PList (PDict d :: rest)) ->
  consent_choice_of d = "1" \/ consent_choice_of d = "2" ->
  remote (calls w ++ [fetch_request cfg record_id])%list
         (update_request cfg (trigger_payload_of record_id (consent_choice_of d)))
    = PostRaises msg ->
  trigger_email cfg remote form w =
    (Raise (RequestException msg),
     mkWorld (calls w ++ [fetch_request cfg record_id;
                          update_request cfg
                            (trigger_payload_of record_id (consent_choice_of d))])
             (stdout w)).
Proof.
  intros Hid Hf Hj Hc Hu.
  rewrite (trigger_email_actionable_run cfg remote form record_id res d rest w
             Hid Hf Hj Hc).
  rewrite send_update_run. cbn [calls stdout]. rewrite Hu.
  rewrite <- app_assoc. reflexivity.
Qed.

Lemma trigger_email_update_transport_error_witness :
  trigger_email example_cfg
    (scripted [ok_response (PList [PDict [("interested_consent", PStr "2")]])])
    [("rec_id", "42")] init =
    (Raise (RequestException "Connection refused"),
     mkWorld [fetch_request example_cfg (Some "42");
              update_request example_cfg
                [("record_id", PStr "42"); ("cons_in_person_email", PStr "1")]] []).
Proof.
  apply (trigger_email_update_transport_error example_cfg
           (scripted [ok_response (PList [PDict [("interested_consent", PStr "2")]])])
           [("rec_id", "42")] (Some "42") "Connection refused"
           (mkResponse 200 "" (Json (PList [PDict [("interested_consent", PStr "2")]])))
           [("interested_consent", PStr "2")] [] init);
    [reflexivity | reflexivity | reflexivity | right; reflexivity | reflexivity].
Defined.

(** An update answered with status 200 is logged as a success, followed by
    the "Email Alert Triggered" line, and the closing page is returned. *)
Theorem trigger_email_accepted_update
    (cfg : Config) (remote : list Request -> Request -> PostResult)
    (form : list (string * string)) (record_id : option string)
    (res ru : Response) (d : list (string * pyval)) (rest : list pyval) (w : World) :
  multidict_get form "rec_id" = record_id ->
  remote (calls w) (fetch_request cfg record_id) = PostReturns res ->
  json res = Json (PList (PDict d :: rest)) ->
  consent_choice_of d = "1" \/ consent_choice_of d = "2" ->
  remote (calls w ++ [fetch_request cfg record_id])%list
         (update_request cfg (trigger_payload_of record_id (consent_choice_of d)))
    = PostReturns ru ->
  status_code ru = 200 ->
  fst (trigger_email cfg remote form w) = Ok (ActionCompletePage, 200) /\
  stdout (snd (trigger_email cfg remote form w)) =
    (stdout w ++
     [ ("Success! Record " ++ fmt record_id ++ " updated. Choice: "
        ++ consent_choice_of d)%string;
       ("Email Alert Triggered: Record " ++ fmt record_id ++ " | Response: "
        ++ text ru ++ ". |  Status: 200 for Choice " ++ consent_choice_of d)%string ])%list.
Proof.
  intros Hid Hf Hj Hc Hu Hs.
  rewrite (trigger_email_actionable_run cfg remote form record_id res d rest w
             Hid Hf Hj Hc).
  rewrite send_update_run. cbn [calls stdout]. rewrite Hu, Hs.
  split; reflexivity.
Qed.

Lemma trigger_email_accepted_update_witness :
  fst (trigger_email example_cfg (scripted C5_accepted_script) [("rec_id", "42")] init) =
    Ok (ActionCompletePage, 200) /\
  stdout (snd (trigger_email example_cfg (scripted C5_accepted_script)
                 [("rec_id", "42")] init)) =
    [ "Success! Record 42 updated. Choice: 1";
      "Email Alert Triggered: Record 42 | Response: {count: 1}. |  Status: 200 for Choice 1" ].
Proof.
  apply (trigger_email_accepted_update example_cfg (scripted C5_accepted_script)
           [("rec_id", "42")] (Some "42")
           (mkResponse 200 ""
              (Json (PList [PDict [("record_id", PStr "42");
                                   ("interested_consent", PStr "1")]])))
           (mkResponse 200 "{count: 1}" (Json (PDict [("count", PInt 1)])))
           [("record_id", PStr "42"); ("interested_consent", PStr "1")] [] init);
    [reflexivity | reflexivity | reflexivity | left; reflexivity | reflexivity
    | reflexivity].
Defined.

(** ** How the handlers compose *)

(** [trigger_email] keeps no memory of an earlier run: invoked a second time
    for the same id while Project B still reports the same actionable
    choice, it sends the same update again, so Project B receives it twice. *)
Theorem trigger_email_twice_writes_twice
    (cfg : Config) (remote : list Request -> Request -> PostResult)
    (form : list (string * string)) (record_id : option string)
    (res1 res2 : Response) (d1 d2 : list (string * pyval))
    (rest1 rest2 : list pyval) (w : World) :
  multidict_get form "rec_id" = record_id ->
  remote (calls w) (fetch_request cfg record_id) = PostReturns res1 ->
  json res1 = Json (PList (PDict d1 :: rest1)) ->
  consent_choice_of d1 = "1" \/ consent_choice_of d1 = "2" ->
  remote (calls (snd (trigger_email cfg remote form w))) (fetch_request cfg record_id)
    = PostReturns res2 ->
  json res2 = Json (PList (PDict d2 :: rest2)) ->
  consent_choice_of d2 = consent_choice_of d1 ->
  writes (snd (trigger_email cfg remote form (snd (trigger_email cfg remote form w)))) =
    (writes w ++
     [ update_request cfg (trigger_payload_of record_id (consent_choice_of d1));
       update_request cfg (trigger_payload_of record_id (consent_choice_of d1)) ])%list.
Proof.
  intros Hid Hf1 Hj1 Hc1 Hf2 Hj2 Hsame.
  assert (Hc2 : consent_choice_of d2 = "1" \/ consent_choice_of d2 = "2")
    by (rewrite Hsame; exact Hc1).
  set (w' := snd (trigger_email cfg remote form w)) in *.
  assert (Hcalls : calls w' =
            (calls w ++ [fetch_request cfg record_id;
                         update_request cfg
                           (trigger_payload_of record_id (consent_choice_of d1))])%list).
  { unfold w'.
    rewrite (trigger_email_actionable_run cfg remote form record_id res1 d1 rest1 w
               Hid Hf1 Hj1 Hc1).
    rewrite send_update_calls. cbn [calls]. rewrite <- app_assoc. reflexivity. }
  rewrite (trigger_email_actionable_run cfg remote form record_id res2 d2 rest2 w'
             Hid Hf2 Hj2 Hc2).
  unfold writes. rewrite send_update_calls. cbn [calls].
  rewrite Hcalls, Hsame, !filter_app. cbn [filter].
  rewrite !fetch_is_not_a_write, !update_is_a_write.
  rewrite app_nil_r. symmetry. exact (app_assoc _ [_] [_]).
Qed.

Lemma trigger_email_twice_writes_twice_witness :
  writes (snd (trigger_email example_cfg
                 (scripted (C5_accepted_script ++ C5_accepted_script))
                 [("rec_id", "42")]
                 (snd (trigger_email example_cfg
                         (scripted (C5_accepted_script ++ C5_accepted_script))
                         [("rec_id", "42")] init)))) =
    [ update_request example_cfg [("record_id", PStr "42"); ("trigger_email", PStr "1")];
      update_request example_cfg [("record_id", PStr "42"); ("trigger_email", PStr "1")] ].
Proof.
  apply (trigger_email_twice_writes_twice example_cfg
           (scripted (C5_accepted_script ++ C5_accepted_script))
           [("rec_id", "42")] (Some "42")
           (mkResponse 200 ""
              (Json (PList [PDict [("record_id", PStr "42");
                                   ("interested_consent", PStr "1")]])))
           (mkResponse 200 ""
              (Json (PList [PDict [("record_id", PStr "42");
                                   ("interested_consent", PStr "1")]])))
           [("record_id", PStr "42"); ("interested_consent", PStr "1")]
           [("record_id", PStr "42"); ("interested_consent", PStr "1")] [] [] init);
    [reflexivity | reflexivity | reflexivity | left; reflexivity | reflexivity
    | reflexivity | reflexivity].
Defined.

(** Transfer, then dispatch.  [transfer_data] imports a record into
    Project B and shows a block for its consent code.  If Project B then
    answers the read-back of [trigger_email] with that very record, the alert
    follows the page: after the electronic form the [data] field of the
    update is the JSON text of the one record holding the id and
    [trigger_email] set to "1", after the in-person form it is the one
    holding the id and [cons_in_person_email] set to "1", and after the
    warning no update is sent at all. *)
Theorem dispatch_follows_transferred_record
    (cfg : Config) (remote : list Request -> Request -> PostResult)
    (args form : list (string * string)) (rid : string)
    (ra rb res : Response) (d : list (string * pyval)) (rest rest' : list pyval)
    (w : World) :
  multidict_get args "record" = Some rid ->
  rid <> "" ->
  remote (calls w) (export_request cfg (Some rid)) = PostReturns ra ->
  json ra = Json (PList (PDict d :: rest)) ->
  remote (calls w ++ [export_request cfg (Some rid)])%list
         (import_request cfg (projection (Some rid) d)) = PostReturns rb ->
  multidict_get form "rec_id" = Some rid ->
  remote (calls (snd (transfer_data cfg remote args w))) (fetch_request cfg (Some rid))
    = PostReturns res ->
  json res = Json (PList (PDict (projection (Some rid) d) :: rest')) ->
  exists (clean : list (string * pyval)) (block : ConsentBlock),
    calls (snd (transfer_data cfg remote args w)) =
      (calls w ++ [export_request cfg (Some rid); import_request cfg clean])%list /\
    form_lookup (data (import_request cfg clean)) "data" =
      Some (FJsonDumps (PList [PDict clean])) /\
    clean = projection (Some rid) d /\
    fst (transfer_data cfg remote args w) = Ok (SyncedPage rid block, 200) /\
    match block with
    | ElectronicConsentForm _ =>
        exists req : Request,
          calls (snd (trigger_email cfg remote form
                        (snd (transfer_data cfg remote args w)))) =
            (calls (snd (transfer_data cfg remote args w))
             ++ [fetch_request cfg (Some rid); req])%list /\
          form_lookup (data req) "data" =
            Some (FJsonDumps
                    (PList [PDict [("record_id", PStr rid);
                                   ("trigger_email", PStr "1")]]))
    | InPersonConsentForm _ =>
        exists req : Request,
          calls (snd (trigger_email cfg remote form
                        (snd (transfer_data cfg remote args w)))) =
            (calls (snd (transfer_data cfg remote args w))
             ++ [fetch_request cfg (Some rid); req])%list /\
          form_lookup (data req) "data" =
            Some (FJsonDumps
                    (PList [PDict [("record_id", PStr rid);
                                   ("cons_in_person_email", PStr "1")]]))
    | NoPreferenceWarning _ =>
        fst (trigger_email cfg remote form (snd (transfer_data cfg remote args w))) =
          Ok (Text "No alert needed for this choice.", 200) /\
        calls (snd (trigger_email cfg remote form
                      (snd (transfer_data cfg remote args w)))) =
          (calls (snd (transfer_data cfg remote args w))
           ++ [fetch_request cfg (Some rid)])%list
    end.
Proof.
  intros Hid Hne Ha Hj Hb Hfid Hf Hj'.
  pose proof (transfer_data_run cfg remote args rid ra d rest w Hid Hne Ha Hj) as Hrun.
  cbv zeta in Hrun. rewrite Hb in Hrun.
  remember (snd (transfer_data cfg remote args w)) as wT eqn:HwT.
  assert (Hcalls : calls wT =
            (calls w ++ [export_request cfg (Some rid);
                         import_request cfg (projection (Some rid) d)])%list).
  { rewrite HwT, Hrun. cbn [snd calls]. rewrite <- app_assoc. reflexivity. }
  rewrite <- Hfid in Hf.
  pose proof (trigger_email_run cfg remote form res (projection (Some rid) d) rest' wT
                Hf Hj') as Htrig.
  cbv zeta in Htrig. rewrite Hfid in Htrig.
  change (consent_choice_of (projection (Some rid) d)) with (consent_choice_of d) in Htrig.
  exists (projection (Some rid) d).
  unfold render_template_string in Hrun.
  destruct (String.eqb (consent_choice_of d) "1").
  { exists (ElectronicConsentForm rid).
    split; [exact Hcalls |]. split; [reflexivity |]. split; [reflexivity |].
    split; [rewrite Hrun; reflexivity |].
    eexists. rewrite Htrig, send_update_calls. cbn [calls].
    rewrite <- app_assoc. split; reflexivity. }
  destruct (String.eqb (consent_choice_of d) "2").
  { exists (InPersonConsentForm rid).
    split; [exact Hcalls |]. split; [reflexivity |]. split; [reflexivity |].
    split; [rewrite Hrun; reflexivity |].
    eexists. rewrite Htrig, send_update_calls. cbn [calls].
    rewrite <- app_assoc. split; reflexivity. }
  exists (NoPreferenceWarning (consent_choice_of d)).
  split; [exact Hcalls |]. split; [reflexivity |]. split; [reflexivity |].
  split; [rewrite Hrun; reflexivity |].
  rewrite Htrig. split; reflexivity.
Qed.

Lemma dispatch_follows_transferred_record_witness :
  exists req : Request,
    calls (snd (trigger_email example_cfg
                  (scripted [ ok_response
                                (PList [PDict (example_record
                                                 [("interested_consent", PInt 2)])]);
                              ok_response (PDict [("count", PInt 1)]);
                              ok_response
                                (PList [PDict (projection (Some "42")
                                                 (example_record
                                                    [("interested_consent", PInt 2)]))]) ])
                  [("rec_id", "42")]
                  (snd (transfer_data example_cfg
                          (scripted [ ok_response
                                        (PList [PDict (example_record
                                                         [("interested_consent", PInt 2)])]);
                                      ok_response (PDict [("count", PInt 1)]);
                                      ok_response
                                        (PList [PDict (projection (Some "42")
                                                         (example_record
                                                            [("interested_consent", PInt 2)]))]) ])
                          [("record", "42")] init)))) =
      [ export_request example_cfg (Some "42");
        import_request example_cfg
          (projection (Some "42") (example_record [("interested_consent", PInt 2)]));
        fetch_request example_cfg (Some "42"); req ] /\
    form_lookup (data req) "data" =
      Some (FJsonDumps
              (PList [PDict [("record_id", PStr "42");
                             ("cons_in_person_email", PStr "1")]])).
Proof.
  destruct (dispatch_follows_transferred_record example_cfg
              (scripted [ ok_response
                            (PList [PDict (example_record
                                             [("interested_consent", PInt 2)])]);
                          ok_response (PDict [("count", PInt 1)]);
                          ok_response
                            (PList [PDict (projection (Some "42")
                                             (example_record
                                                [("interested_consent", PInt 2)]))]) ])
              [("record", "42")] [("rec_id", "42")] "42"
              (mkResponse 200 ""
                 (Json (PList [PDict (example_record [("interested_consent", PInt 2)])])))
              (mkResponse 200 "" (Json (PDict [("count", PInt 1)])))
              (mkResponse 200 ""
                 (Json (PList [PDict (projection (Some "42")
                                        (example_record
                                           [("interested_consent", PInt 2)]))])))
              (example_record [("interested_consent", PInt 2)]) [] [] init)
    as [clean [block [_ [_ [_ [Hpage Hblock]]]]]];
    [reflexivity | discriminate | reflexivity | reflexivity | reflexivity
    | reflexivity | reflexivity | reflexivity |].
  cbn in Hpage. injection Hpage as <-.
  destruct Hblock as [req [Hc Hd]]. exists req. split; [exact Hc | exact Hd].
Defined.

(** Each call presents the credential of the project it addresses: in
    [transfer_data] a read presents the Project A token and a write the
    Project B token; every call of [trigger_email] presents the Project B
    token. *)
Theorem handlers_present_the_right_token
    (cfg : Config) (remote : list Request -> Request -> PostResult)
    (args form : list (string * string)) (w : World) :
  (exists new : list Request,
     calls (snd (transfer_data cfg remote args w)) = (calls w ++ new)%list /\
     Forall (fun r => token_of r =
                        Some (form_of (if is_write r then API_TOKEN_B cfg
                                       else API_TOKEN_A cfg))) new) /\
  (exists new : list Request,
     calls (snd (trigger_email cfg remote form w)) = (calls w ++ new)%list /\
     Forall (fun r => token_of r = Some (form_of (API_TOKEN_B cfg))) new).
Proof.
  split.
  - destruct (transfer_data_new_calls cfg remote args w)
      as [H | [rid [_ [_ [H | [ra [d [rest [_ [_ H]]]]]]]]]].
    + exists []. rewrite app_nil_r. split; [exact H | constructor].
    + eexists. split; [exact H |]. repeat constructor.
    + eexists. split; [exact H |]. repeat constructor.
  - destruct (trigger_email_new_calls cfg remote form w) as [H | [choice [_ H]]].
    + eexists. split; [exact H |]. repeat constructor.
    + eexists. split; [exact H |]. repeat constructor.
Qed.

(** ** Which stored values count as a consent code *)

Lemma str_of_int_inj (a b : Z) : str_of_int a = str_of_int b -> a = b.
Proof.
  unfold str_of_int. intros H.
  assert (Hn : forall z, Z.to_int z <> Decimal.Pos Decimal.Nil /\
                         Z.to_int z <> Decimal.Neg Decimal.Nil).
  { intros [| p | p]; cbn; split; try discriminate;
      intros E; injection E as E; exact (DecimalPos.Unsigned.to_uint_nonnil p E). }
  assert (E : Some (Z.to_int a) = Some (Z.to_int b)).
  { rewrite <- (NilZero.isi (Z.to_int a)), <- (NilZero.isi (Z.to_int b));
      try apply Hn. rewrite H. reflexivity. }
  injection E as E.
  rewrite <- (DecimalZ.of_to a), <- (DecimalZ.of_to b), E. reflexivity.
Qed.

(** The consent field is compared after [str()]: besides the texts "1" and
    "2" the JSON numbers 1 and 2 select a branch, and no other null, boolean,
    integer, text, list or object does. *)
Theorem consent_code_is_compared_as_text
    (d : list (string * pyval)) (v : pyval) :
  dict_lookup d "interested_consent" = Some v ->
  (forall r : string, v <> PFloat r) ->
  (consent_choice_of d = "1" <-> v = PStr "1" \/ v = PInt 1) /\
  (consent_choice_of d = "2" <-> v = PStr "2" \/ v = PInt 2).
Proof.
  intros Hv Hfloat. unfold consent_choice_of, dict_get. rewrite Hv.
  destruct v as [| b | z | r | s | l | dd].
  - split; (split; [intros E; discriminate E | intros [E | E]; discriminate E]).
  - destruct b;
      split; (split; [intros E; discriminate E | intros [E | E]; discriminate E]).
  - split; (split;
      [ intros E; right; f_equal; apply str_of_int_inj; exact E
      | intros [E | E]; [discriminate E | injection E as ->; reflexivity] ]).
  - exfalso. exact (Hfloat r eq_refl).
  - split; (split;
      [ intros E; left; f_equal; exact E
      | intros [E | E]; [injection E as ->; reflexivity | discriminate E] ]).
  - split; (split; [intros E; discriminate E | intros [E | E]; discriminate E]).
  - split; (split; [intros E; discriminate E | intros [E | E]; discriminate E]).
Qed.

Lemma consent_code_is_compared_as_text_witness :
  consent_choice_of (example_record [("interested_consent", PInt 2)]) = "2" <->
  PInt 2 = PStr "2" \/ PInt 2 = PInt 2.
Proof.
  apply (consent_code_is_compared_as_text
           (example_record [("interested_consent", PInt 2)]) (PInt 2));
    [reflexivity | discriminate].
Defined.

(** ** The start-up connection check *)

Lemma prefix_nil (s : string) : String.prefix "" s = true.
Proof. destruct s; reflexivity. Qed.

Lemma prefix_app (p s t : string) :
  String.prefix p s = true -> String.prefix p (s ++ t) = true.
Proof.
  revert s. induction p as [| c p IH]; intros s H; [apply prefix_nil |].
  destruct s as [| c' s]; [discriminate H |].
  cbn in *. destruct (Ascii.ascii_dec c c'); [apply IH; exact H | discriminate H].
Qed.

Lemma prefix_nonempty_nil (p : string) : p <> "" -> String.prefix p "" = false.
Proof. destruct p; [intros H; contradiction H; reflexivity | reflexivity]. Qed.

Lemma before_first_nil (sep : string) : before_first sep "" = "".
Proof. destruct sep; reflexivity. Qed.

Lemma before_first_cons (sep : string) (c : ascii) (s : string) :
  before_first sep (String c s) =
    if String.prefix sep (String c s) then "" else String c (before_first sep s).
Proof. reflexivity. Qed.

Lemma py_in_nil (sep : string) : py_in sep "" = String.prefix sep "".
Proof. destruct sep; reflexivity. Qed.

Lemma py_in_cons (sep : string) (c : ascii) (s : string) :
  py_in sep (String c s) =
    if String.prefix sep (String c s) then true else py_in sep s.
Proof. reflexivity. Qed.

Lemma before_first_is_prefix (sep s : string) :
  exists rest : string, s = before_first sep s ++ rest.
Proof.
  induction s as [| c s [rest IH]].
  - exists "". rewrite before_first_nil. reflexivity.
  - rewrite before_first_cons. destruct (String.prefix sep (String c s)).
    + exists (String c s). reflexivity.
    + exists rest. cbn [String.append]. rewrite <- IH. reflexivity.
Qed.

Lemma prefix_exact (p s : string) :
  String.prefix p s = true -> exists rest : string, s = p ++ rest.
Proof.
  revert s. induction p as [| c p IH]; intros s H.
  - exists s. reflexivity.
  - destruct s as [| c' s]; [discriminate H |]. cbn in H.
    destruct (Ascii.ascii_dec c c') as [<- |]; [| discriminate H].
    destruct (IH s H) as [rest ->]. exists rest. reflexivity.
Qed.

(** [split(sep)[0]] cuts at the first occurrence: either [sep] follows the
    result in the text, or [sep] does not occur and the result is the whole
    text; for a non-empty [sep] the result itself never contains [sep]. *)
Theorem before_first_cuts_at_first_occurrence (sep s : string) :
  ((exists rest : string, s = before_first sep s ++ sep ++ rest) \/
   (before_first sep s = s /\ py_in sep s = false)) /\
  (sep <> "" -> py_in sep (before_first sep s) = false).
Proof.
  split.
  - induction s as [| c s IH].
    + rewrite before_first_nil, py_in_nil. destruct (String.prefix sep "") eqn:Hp.
      * left. destruct (prefix_exact sep "" Hp) as [rest E]. exists rest. exact E.
      * right. split; reflexivity.
    + rewrite before_first_cons, py_in_cons.
      destruct (String.prefix sep (String c s)) eqn:Hp.
      * left. destruct (prefix_exact sep _ Hp) as [rest E]. exists rest. exact E.
      * destruct IH as [[rest E] | [E Hin]].
        -- left. exists rest. cbn [String.append]. rewrite <- E. reflexivity.
        -- right. rewrite E. split; [reflexivity | exact Hin].
  - intros Hne. induction s as [| c s IH].
    + rewrite before_first_nil, py_in_nil. apply prefix_nonempty_nil, Hne.
    + rewrite before_first_cons. destruct (String.prefix sep (String c s)) eqn:Hp.
      * rewrite py_in_nil. apply prefix_nonempty_nil, Hne.
      * rewrite py_in_cons, IH.
        destruct (String.prefix sep (String c (before_first sep s))) eqn:Hq;
          [| reflexivity].
        destruct (before_first_is_prefix sep s) as [rest E].
        apply (prefix_app _ _ rest) in Hq. cbn [String.append] in Hq.
        rewrite <- E, Hp in Hq. discriminate Hq.
Qed.

(** The check never stops the import of the module: whatever the
    configuration and the server, it ends normally, makes at most one
    request and prints exactly one line. *)
Theorem connection_check_prints_one_line
    (cfg : Config) (server : list Request -> Request -> PostResult) (w : World) :
  fst (connection_check cfg server w) = Ok tt /\
  (List.length (calls (snd (connection_check cfg server w)))
     <= List.length (calls w) + 1)%nat /\
  exists line : string,
    stdout (snd (connection_check cfg server w)) = (stdout w ++ [line])%list.
Proof.
  unfold connection_check, try_except, bind, split0, requests_get, Exception.
  destruct (REDCAP_API_URL cfg) as [u |]; cbn [lift].
  - destruct (server (calls w) _) as [msg | r]; cbn -[String.append before_first];
      (split; [reflexivity |]); rewrite length_app; cbn [List.length];
      (split; [lia | eexists; reflexivity]).
  - cbn -[String.append]. split; [reflexivity |]. split; [lia | eexists; reflexivity].
Qed.

(** With [TRACE_AI_REDCAP_URL] unset the check makes no request at all and
    prints the warning built from the [AttributeError] of [None.split]. *)
Theorem connection_check_unset_url
    (cfg : Config) (server : list Request -> Request -> PostResult) (w : World) :
  REDCAP_API_URL cfg = None ->
  connection_check cfg server w =
    (Ok tt,
     mkWorld (calls w)
       (stdout w ++ ["Warning: Could not verify REDCap connection: 'NoneType' object has no attribute 'split'"])).
Proof.
  intros H. unfold connection_check, try_except, bind, split0. rewrite H.
  reflexivity.
Qed.

Lemma connection_check_unset_url_witness :
  connection_check (mkConfig (Some "TOKEN-A") (Some "TOKEN-B") None) (scripted []) init =
    (Ok tt,
     mkWorld []
       ["Warning: Could not verify REDCap connection: 'NoneType' object has no attribute 'split'"]).
Proof.
  apply (connection_check_unset_url (mkConfig (Some "TOKEN-A") (Some "TOKEN-B") None)
           (scripted []) init).
  reflexivity.
Defined.

(** The request goes to the configured URL cut before its first "api/", and
    any response at all, whatever its status code, is reported as
    "<status> - Secure". *)
Theorem connection_check_reports_any_status_as_secure
    (cfg : Config) (server : list Request -> Request -> PostResult)
    (u : string) (r : Response) (w : World) :
  REDCAP_API_URL cfg = Some u ->
  server (calls w) (mkRequest (Some (before_first "api/" u)) []) = PostReturns r ->
  connection_check cfg server w =
    (Ok tt,
     mkWorld (calls w ++ [mkRequest (Some (before_first "api/" u)) []])
       (stdout w ++ [("REDCAP Connection Check: " ++ str_of_int (status_code r)
                      ++ " - Secure")%string])).
Proof.
  intros Hu Hs.
  unfold connection_check, try_except, bind, split0, requests_get. rewrite Hu.
  cbn [lift]. rewrite Hs. reflexivity.
Qed.

Lemma connection_check_reports_any_status_as_secure_witness :
  connection_check example_cfg
    (scripted [respond 503 "Service Unavailable" PNone]) init =
    (Ok tt,
     mkWorld [mkRequest (Some "https://redcap.example.org/") []]
       ["REDCAP Connection Check: 503 - Secure"]).
Proof.
  apply (connection_check_reports_any_status_as_secure example_cfg
           (scripted [respond 503 "Service Unavailable" PNone])
           "https://redcap.example.org/api/"
           (mkResponse 503 "Service Unavailable" (Json PNone)) init);
    reflexivity.
Defined.

(** With a URL configured, the one request of the check goes to that URL
    cut before its first "api/": the address requested never contains
    "api/", and it is the whole configured URL only when that has no "api/"
    in it. *)
Theorem connection_check_probes_before_api
    (cfg : Config) (server : list Request -> Request -> PostResult)
    (u : string) (w : World) :
  REDCAP_API_URL cfg = Some u ->
  exists base : string,
    calls (snd (connection_check cfg server w)) =
      (calls w ++ [mkRequest (Some base) []])%list /\
    py_in "api/" base = false /\
    ((exists rest : string, u = base ++ "api/" ++ rest) \/
     (base = u /\ py_in "api/" u = false)).
Proof.
  intros Hu. exists (before_first "api/" u).
  destruct (before_first_cuts_at_first_occurrence "api/" u) as [Hcut Hfree].
  split; [| split; [apply Hfree; discriminate | exact Hcut]].
  unfold connection_check, try_except, bind, split0, requests_get. rewrite Hu.
  cbn [lift]. destruct (server (calls w) _); reflexivity.
Qed.

Lemma connection_check_probes_before_api_witness :
  exists base : string,
    calls (snd (connection_check example_cfg (scripted []) init)) =
      [mkRequest (Some base) []] /\
    py_in "api/" base = false /\
    ((exists rest : string, "https://redcap.example.org/api/" = base ++ "api/" ++ rest) \/
     (base = "https://redcap.example.org/api/" /\
      py_in "api/" "https://redcap.example.org/api/" = false)).
Proof.
  apply (connection_check_probes_before_api example_cfg (scripted [])
           "https://redcap.example.org/api/" init).
  reflexivity.
Defined.

(** ** The QC batch script *)

Lemma py_in_app_l (n x y : string) : py_in n x = true -> py_in n (x ++ y) = true.
Proof.
  induction x as [| c x IH].
  - rewrite py_in_nil. intros H. cbn [String.append].
    destruct n; [| discriminate H].
    destruct y; reflexivity.
  - rewrite py_in_cons. cbn [String.append]. rewrite py_in_cons.
    destruct (String.prefix n (String c x)) eqn:Hp.
    + intros _. pose proof (prefix_app n (String c x) y Hp) as Hq.
      cbn [String.append] in Hq. rewrite Hq. reflexivity.
    + intros H. rewrite (IH H).
      destruct (String.prefix n (String c (x ++ y))); reflexivity.
Qed.

Lemma py_in_app_r (n x y : string) : py_in n y = true -> py_in n (x ++ y) = true.
Proof.
  intros H. induction x as [| c x IH]; [exact H |].
  cbn [String.append]. rewrite py_in_cons, IH.
  destruct (String.prefix n (String c (x ++ y))); reflexivity.
Qed.

Lemma escape_app (a b : string) : escape (a ++ b) = escape a ++ escape b.
Proof.
  induction a as [| c a IH]; [reflexivity |].
  cbn [String.append escape]. rewrite IH.
  destruct c as [[] [] [] [] [] [] [] []]; reflexivity.
Qed.

Section QCRuns.

Variable flask : list Request -> Request -> PostResult.

Lemma test_record_run (rid : string) (w : World) :
  QC.test_record flask rid w =
    (Ok tt,
     mkWorld (calls w ++ [QC_request rid])
       (stdout w ++ [("Testing Record " ++ rid ++ ": ")%string;
                     (QC_line (flask (calls w) (QC_request rid)) ++ nl)%string])).
Proof.
  unfold QC.test_record, QC.print_end_empty, QC.println, bind, try_except,
    requests_get, print.
  cbn [calls stdout]. fold (QC_request rid).
  destruct (flask (calls w) (QC_request rid)) as [msg | r];
    cbn [Exception calls stdout QC_line exn_str]; rewrite <- app_assoc; reflexivity.
Qed.

Lemma for_rid_in_run (rids : list string) (w : World) :
  exists out : list string,
    QC.for_rid_in flask rids w =
      (Ok tt, mkWorld (calls w ++ map QC_request rids) (stdout w ++ out)) /\
    List.length out = (2 * List.length rids)%nat.
Proof.
  revert w. induction rids as [| rid rids IH]; intros w.
  - exists []. cbn. rewrite !app_nil_r, world_eta. split; reflexivity.
  - cbn [QC.for_rid_in]. unfold bind at 1.
    rewrite (test_record_run rid w).
    match goal with
    | |- context [QC.for_rid_in flask rids ?w1] =>
        destruct (IH w1) as [out [-> Hlen]]
    end.
    exists (("Testing Record " ++ rid ++ ": ")%string
            :: (QC_line (flask (calls w) (QC_request rid)) ++ nl)%string :: out).
    cbn [calls stdout map List.length]. rewrite <- !app_assoc.
    split; [reflexivity | lia].
Qed.

End QCRuns.

Lemma QC_records_nonempty (rid : string) : In rid QC.records -> rid <> "".
Proof.
  intros H. cbv in H. decompose [or] H; subst; try discriminate. contradiction.
Qed.

(** Whatever the server answers, and even when every request fails, the
    batch runs to its end: it sends one request for each of the ids 30 to 45,
    in order, and prints the two header lines, two texts per id and the two
    closing lines. *)
Theorem qc_main_visits_every_record
    (flask : list Request -> Request -> PostResult) (w : World) :
  QC.records = [ "30"; "31"; "32"; "33"; "34"; "35"; "36"; "37";
                 "38"; "39"; "40"; "41"; "42"; "43"; "44"; "45" ] /\
  exists out : list string,
    QC.main flask w =
      (Ok tt,
       mkWorld (calls w ++ map QC_request QC.records)
         (stdout w
          ++ [ ("---STARTING QC BATCH TEST---" ++ nl)%string;
               (QC.times "-" 50 ++ nl)%string ]
          ++ out
          ++ [ (QC.times "-" 50 ++ nl)%string;
               ("Batch Test Complete. Check your Flask terminal for Sync logs."
                ++ nl)%string ])) /\
    List.length out = 32%nat.
Proof.
  split; [reflexivity |].
  unfold QC.main, QC.println, bind, print. cbn [calls stdout].
  match goal with
  | |- context [QC.for_rid_in flask QC.records ?w1] =>
      destruct (for_rid_in_run flask QC.records w1) as [out [-> Hlen]]
  end.
  exists out. cbn [calls stdout]. split; [| exact Hlen].
  rewrite <- !app_assoc. reflexivity.
Qed.

(** ** The QC script against [transfer_data] *)

(** For the ids the script tests, the 400 branch of its report cannot be
    reached: whatever [transfer_data] answers is reported as one of the three
    SUCCESS lines, as "Record not found", or as "ERROR | Status: 500". *)
Theorem qc_never_reports_missing_id
    (cfg : Config) (remote : list Request -> Request -> PostResult)
    (rid : string) (w : World) (ret : HttpReturn) (r : Response) :
  In rid QC.records ->
  fst (transfer_data cfg remote [("record", rid)] w) = Ok ret ->
  carries r ret ->
  In (QC.verdict r)
     [ "SUCCESS [Electronic Consent]"; "SUCCESS [In-Person Consent]";
       "SUCCESS [Synced]"; "FAILED | Record not found in Project A.";
       "ERROR | Status: 500" ].
Proof.
  intros Hin Hret [Hs Ht].
  assert (Hne : rid <> "") by (apply QC_records_nonempty; exact Hin).
  assert (Hst : snd ret = 200 \/ snd ret = 404 \/ snd ret = 500).
  { destruct (transfer_data_outcomes cfg remote [("record", rid)] rid w eq_refl Hne)
      as [[m H] | [H | [ra [d [rest [_ [_ H]]]]]]].
    - rewrite H in Hret. injection Hret as <-. tauto.
    - rewrite H in Hret. injection Hret as <-. tauto.
    - cbv zeta in H. destruct H as [[m H] | [line H]];
        rewrite H in Hret; injection Hret as <-; tauto. }
  unfold QC.verdict. rewrite Hs.
  destruct Hst as [-> | [-> | ->]]; cbn -[py_in In].
  - destruct (py_in "Electronic Consent" (text r)); [cbn; tauto |].
    destruct (py_in "In-Person Consent" (text r)); cbn; tauto.
  - cbn; tauto.
  - cbn; tauto.
Qed.

Lemma qc_never_reports_missing_id_witness :
  In (QC.verdict (mkResponse 404
        "Error: Record 30 not found in Project TRACE-AI Prospective Study."
        (NotJson "")))
     [ "SUCCESS [Electronic Consent]"; "SUCCESS [In-Person Consent]";
       "SUCCESS [Synced]"; "FAILED | Record not found in Project A.";
       "ERROR | Status: 500" ].
Proof.
  apply (qc_never_reports_missing_id example_cfg (scripted C8_script) "30" init
           (Text "Error: Record 30 not found in Project TRACE-AI Prospective Study.", 404)
           (mkResponse 404
              "Error: Record 30 not found in Project TRACE-AI Prospective Study."
              (NotJson "")));
    [left; reflexivity | reflexivity | split; reflexivity].
Defined.

(** A transfer that ends on the electronic-consent form is reported as
    "SUCCESS [Electronic Consent]", for every record id. *)
Theorem qc_reports_electronic_consent
    (cfg : Config) (remote : list Request -> Request -> PostResult)
    (args : list (string * string)) (rid : string)
    (ra rb : Response) (d : list (string * pyval)) (rest : list pyval) (w : World) :
  multidict_get args "record" = Some rid ->
  rid <> "" ->
  remote (calls w) (export_request cfg (Some rid)) = PostReturns ra ->
  json ra = Json (PList (PDict d :: rest)) ->
  consent_choice_of d = "1" ->
  remote (calls w ++ [export_request cfg (Some rid)])%list
         (import_request cfg (projection (Some rid) d)) = PostReturns rb ->
  fst (transfer_data cfg remote args w) =
    Ok (SyncedPage rid (ElectronicConsentForm rid), 200) /\
  forall r : Response,
    carries r (SyncedPage rid (ElectronicConsentForm rid), 200) ->
    QC.verdict r = "SUCCESS [Electronic Consent]".
Proof.
  intros Hid Hne Ha Hj Hc Hb. split.
  { rewrite (transfer_data_run cfg remote args rid ra d rest w Hid Hne Ha Hj), Hb, Hc.
    reflexivity. }
  intros r [Hs Ht]. unfold QC.verdict. rewrite Hs, Ht.
  cbn [snd fst Z.eqb Pos.eqb body_text].
  assert (Hin : py_in "Electronic Consent"
                  (page_head rid ++ electronic_block rid ++ page_tail) = true).
  { apply py_in_app_r, py_in_app_l. unfold electronic_block.
    apply py_in_app_r, py_in_app_l. reflexivity. }
  rewrite Hin. reflexivity.
Qed.

Lemma qc_reports_electronic_consent_witness :
  fst (transfer_data example_cfg (scripted C3_script) [("record", "42")] init) =
    Ok (SyncedPage "42" (ElectronicConsentForm "42"), 200) /\
  forall r : Response,
    carries r (SyncedPage "42" (ElectronicConsentForm "42"), 200) ->
    QC.verdict r = "SUCCESS [Electronic Consent]".
Proof.
  apply (qc_reports_electronic_consent example_cfg (scripted C3_script)
           [("record", "42")] "42"
           (mkResponse 200 ""
              (Json (PList [PDict (example_record [("interested_consent", PStr "1")])])))
           (mkResponse 200 "" (Json (PDict [("count", PInt 1)])))
           (example_record [("interested_consent", PStr "1")]) [] init);
    [reflexivity | discriminate | reflexivity | reflexivity | reflexivity | reflexivity].
Defined.

(** For the ids the script tests, a transfer that ends on the in-person form
    is reported as "SUCCESS [In-Person Consent]". *)
Theorem qc_reports_in_person_consent
    (cfg : Config) (remote : list Request -> Request -> PostResult)
    (rid : string) (ra rb : Response) (d : list (string * pyval))
    (rest : list pyval) (w : World) :
  In rid QC.records ->
  remote (calls w) (export_request cfg (Some rid)) = PostReturns ra ->
  json ra = Json (PList (PDict d :: rest)) ->
  consent_choice_of d = "2" ->
  remote (calls w ++ [export_request cfg (Some rid)])%list
         (import_request cfg (projection (Some rid) d)) = PostReturns rb ->
  fst (transfer_data cfg remote [("record", rid)] w) =
    Ok (SyncedPage rid (InPersonConsentForm rid), 200) /\
  forall r : Response,
    carries r (SyncedPage rid (InPersonConsentForm rid), 200) ->
    QC.verdict r = "SUCCESS [In-Person Consent]".
Proof.
  intros Hin Ha Hj Hc Hb.
  assert (Hne : rid <> "") by (apply QC_records_nonempty; exact Hin).
  split.
  { rewrite (transfer_data_run cfg remote [("record", rid)] rid ra d rest w
               eq_refl Hne Ha Hj), Hb, Hc.
    reflexivity. }
  intros r [Hs Ht]. unfold QC.verdict. rewrite Hs, Ht.
  clear - Hin. cbv in Hin.
  decompose [or] Hin; try contradiction; subst rid; vm_compute; reflexivity.
Qed.

Lemma qc_reports_in_person_consent_witness :
  fst (transfer_data example_cfg (scripted C1_script) [("record", "42")] init) =
    Ok (SyncedPage "42" (InPersonConsentForm "42"), 200) /\
  forall r : Response,
    carries r (SyncedPage "42" (InPersonConsentForm "42"), 200) ->
    QC.verdict r = "SUCCESS [In-Person Consent]".
Proof.
  apply (qc_reports_in_person_consent example_cfg (scripted C1_script) "42"
           (mkResponse 200 ""
              (Json (PList [PDict [("record_id", PStr "42");
                                   ("interested_consent", PStr "2")]])))
           (mkResponse 200 "" (Json (PDict [("count", PInt 1)])))
           [("record_id", PStr "42"); ("interested_consent", PStr "2")] [] init);
    [ do 12 right; left; reflexivity | reflexivity | reflexivity | reflexivity
    | reflexivity ].
Defined.

(** The report only searches the page for a phrase.  When the stored consent
    value is not a code but a text containing "Electronic Consent",
    [transfer_data] shows the warning block, and the script still reports
    "SUCCESS [Electronic Consent]". *)
Theorem qc_reads_the_phrase_not_the_branch
    (cfg : Config) (remote : list Request -> Request -> PostResult)
    (args : list (string * string)) (rid a b : string)
    (ra rb : Response) (d : list (string * pyval)) (rest : list pyval) (w : World) :
  multidict_get args "record" = Some rid ->
  rid <> "" ->
  remote (calls w) (export_request cfg (Some rid)) = PostReturns ra ->
  json ra = Json (PList (PDict d :: rest)) ->
  consent_choice_of d = a ++ "Electronic Consent" ++ b ->
  remote (calls w ++ [export_request cfg (Some rid)])%list
         (import_request cfg (projection (Some rid) d)) = PostReturns rb ->
  fst (transfer_data cfg remote args w) =
    Ok (SyncedPage rid (NoPreferenceWarning (a ++ "Electronic Consent" ++ b)), 200) /\
  forall r : Response,
    carries r (SyncedPage rid (NoPreferenceWarning (a ++ "Electronic Consent" ++ b)), 200) ->
    QC.verdict r = "SUCCESS [Electronic Consent]".
Proof.
  intros Hid Hne Ha Hj Hc Hb. split.
  { rewrite (transfer_data_run cfg remote args rid ra d rest w Hid Hne Ha Hj), Hb, Hc.
    unfold render_template_string.
    assert (H1 : String.eqb (a ++ "Electronic Consent" ++ b) "1" = false).
    { apply String.eqb_neq. destruct a as [| c [| c' a]]; discriminate. }
    assert (H2 : String.eqb (a ++ "Electronic Consent" ++ b) "2" = false).
    { apply String.eqb_neq. destruct a as [| c [| c' a]]; discriminate. }
    rewrite H1, H2. reflexivity. }
  intros r [Hs Ht]. unfold QC.verdict. rewrite Hs, Ht.
  cbn [snd fst Z.eqb Pos.eqb body_text].
  assert (Hin : py_in "Electronic Consent"
                  (page_head rid
                   ++ warning_block (a ++ "Electronic Consent" ++ b)
                   ++ page_tail) = true).
  { apply py_in_app_r, py_in_app_l. unfold warning_block.
    do 6 apply py_in_app_r. apply py_in_app_l.
    rewrite !escape_app. apply py_in_app_r, py_in_app_l. reflexivity. }
  rewrite Hin. reflexivity.
Qed.

Lemma qc_reads_the_phrase_not_the_branch_witness :
  fst (transfer_data example_cfg
         (scripted [ok_response
                      (PList [PDict [("interested_consent",
                                      PStr "declined Electronic Consent")]]);
                    ok_response (PDict [("count", PInt 1)])])
         [("record", "42")] init) =
    Ok (SyncedPage "42" (NoPreferenceWarning ("declined " ++ "Electronic Consent" ++ "")),
        200) /\
  forall r : Response,
    carries r (SyncedPage "42"
                 (NoPreferenceWarning ("declined " ++ "Electronic Consent" ++ "")), 200) ->
    QC.verdict r = "SUCCESS [Electronic Consent]".
Proof.
  apply (qc_reads_the_phrase_not_the_branch example_cfg
           (scripted [ok_response
                        (PList [PDict [("interested_consent",
                                        PStr "declined Electronic Consent")]]);
                      ok_response (PDict [("count", PInt 1)])])
           [("record", "42")] "42" "declined " ""
           (mkResponse 200 ""
              (Json (PList [PDict [("interested_consent",
                                    PStr "declined Electronic Consent")]])))
           (mkResponse 200 "" (Json (PDict [("count", PInt 1)])))
           [("interested_consent", PStr "declined Electronic Consent")] [] init);
    [reflexivity | discriminate | reflexivity | reflexivity | reflexivity | reflexivity].
Defined.
